(** * ManageDocumentForm: the document edit reconciler

    A shallow embedding of [src/components/manage-document-form.tsx]:
    the delta computed by [onSubmit] (added files, removed ids), the
    control flow of [onSubmit] itself (try / catch / finally around an
    asynchronous progress stream), the effect that runs when
    [initialDocuments] changes, the two handlers that edit the form value
    (dropping files, deleting a row), the schema of the form value, and
    the parts of the render function that show the rows and the progress
    text; and of the theme toggle of [src/unnamed/part_000].

    Conventions.
    - A TypeScript optional field ([id?: string], [file?: File]) is an
      [option]; [None] stands for both [undefined] and [null], which the
      code never tells apart (it only tests truthiness).
    - React state setters and the parent callbacks [onUpdateStart] and
      [onUpdateEnd] are recorded as events of a log, in call order.
    - [onSubmit] is modelled twice.  The first model takes the parent
      callbacks as returning normally and [JSON.stringify] as the
      function [JS.stringify]; it serves the statements about the
      nominal flow.  The second one, [Surroundings.onSubmit], takes what
      the callbacks do (return or throw) and [JSON.stringify] (which can
      throw) as parameters, and records with each event the state of the
      component at that event; it serves the statements about error
      paths and about the state at a call.  [surroundings_agree] relates
      the two.
    - The asynchronous generator returned by [submitUpdateDocuments] is a
      finite script: some messages, then completion or rejection.  A
      generator that never settles has no exit path and is not modelled;
      nor is a second run, or the effect on [initialDocuments], started
      while a run is suspended. *)

From Stdlib Require Import List String Ascii ZArith Bool Lia FinFun.
From Stdlib Require Import DecimalString.
Import ListNotations.

Set Warnings "-register-all".

Local Open Scope string_scope.
Local Open Scope list_scope.

(** ** JavaScript values *)

Module JS.

(** Values, as far as line 118 looks at one: primitives, functions,
    [Error] instances and plain objects whose own enumerable properties
    are data properties, listed in the order JavaScript enumerates them
    (integer-like keys first, in ascending order, then the other keys in
    insertion order).  [Num n] is the Number of integer value [n], meant
    for the safe integers (below 2^53 in absolute value).  No value of
    this type is cyclic, is a BigInt, or carries a [toJSON] method or a
    getter: what [JSON.stringify] does on such values is covered by the
    parameter of [Surroundings], not by [stringify] below. *)
Inductive Value : Type :=
| Undefined
| Null
| Bool (b : bool)
| Num (n : Z)
| Str (s : string)
| Fun (name : string)
| Error (name message : string)
| Obj (props : list (string * Value)).

(** [!!v] *)
Definition truthy (v : Value) : bool :=
  match v with
  | Undefined | Null => false
  | Bool b => b
  | Num n => negb (n =? 0)%Z
  | Str s => negb (s =? EmptyString)
  | Fun _ | Error _ _ | Obj _ => true
  end.

(** [a || b]: [a] when it is truthy, otherwise [b]. *)
Definition or (a b : Value) : Value := if truthy a then a else b.

(** Outcome of evaluating an expression: a value, or a thrown value. *)
Inductive Completion (A : Type) : Type :=
| Normal (a : A)
| Throw (e : Value).
Arguments Normal {A} a.
Arguments Throw {A} e.

Fixpoint lookup (k : string) (props : list (string * Value)) : Value :=
  match props with
  | [] => Undefined
  | (k', v) :: rest => if k =? k' then v else lookup k rest
  end.

Definition TypeError (message : string) : Value := Error "TypeError" message.

(** [v.message].  Reading a property of [undefined] or [null] throws a
    TypeError; the primitive wrappers and [Function.prototype] have no
    [message] property; an [Error] instance answers with its message. *)
Definition get_message (v : Value) : Completion Value :=
  match v with
  | Undefined =>
      Throw (TypeError "Cannot read properties of undefined (reading 'message')")
  | Null =>
      Throw (TypeError "Cannot read properties of null (reading 'message')")
  | Bool _ | Num _ | Str _ | Fun _ => Normal Undefined
  | Error _ m => Normal (Str m)
  | Obj props => Normal (lookup "message" props)
  end.

(** *** JSON.stringify *)

Definition hex_digit (n : nat) : ascii :=
  match n with
  | 0 => "0" | 1 => "1" | 2 => "2" | 3 => "3" | 4 => "4" | 5 => "5"
  | 6 => "6" | 7 => "7" | 8 => "8" | 9 => "9" | 10 => "a" | 11 => "b"
  | 12 => "c" | 13 => "d" | 14 => "e" | _ => "f"
  end%char.

Definition backslash : ascii := ascii_of_nat 92.
Definition dquote : ascii := ascii_of_nat 34.

(** One character of a string inside a JSON string literal. *)
Definition json_escape (c : ascii) : string :=
  let n := nat_of_ascii c in
  if Nat.eqb n 34 then String backslash (String dquote EmptyString)
  else if Nat.eqb n 92 then String backslash (String backslash EmptyString)
  else if Nat.eqb n 8 then String backslash "b"
  else if Nat.eqb n 9 then String backslash "t"
  else if Nat.eqb n 10 then String backslash "n"
  else if Nat.eqb n 12 then String backslash "f"
  else if Nat.eqb n 13 then String backslash "r"
  else if Nat.ltb n 32 then
    String backslash
      (String "u" (String "0" (String "0"
         (String (hex_digit (Nat.div n 16))
            (String (hex_digit (Nat.modulo n 16)) EmptyString)))))
  else String c EmptyString.

Fixpoint json_escape_all (s : string) : string :=
  match s with
  | EmptyString => EmptyString
  | String c rest => (json_escape c ++ json_escape_all rest)%string
  end.

Definition json_quote (s : string) : string :=
  String dquote (json_escape_all s ++ String dquote EmptyString)%string.

(** The positional decimal of an integer: what [JSON.stringify] prints
    for a safe integer (from 1e21 on it prints an exponent form, which
    this function does not). *)
Definition json_number (n : Z) : string :=
  NilZero.string_of_int (Z.to_int n).

(** [JSON.stringify(v)] on the values above, numbers being safe
    integers: [None] is the result [undefined].  A property whose value
    serialises to [undefined] is left out of its object; the properties
    are printed in the order of the list.  On these values
    [JSON.stringify] does not throw. *)
Fixpoint stringify (v : Value) : option string :=
  match v with
  | Undefined | Fun _ => None
  | Null => Some "null"
  | Bool true => Some "true"
  | Bool false => Some "false"
  | Num n => Some (json_number n)
  | Str s => Some (json_quote s)
  | Error _ _ => Some "{}"
  | Obj props =>
      let fix members (ps : list (string * Value)) : list string :=
        match ps with
        | [] => []
        | (k, x) :: rest =>
            match stringify x with
            | Some s => (json_quote k ++ ":" ++ s)%string :: members rest
            | None => members rest
            end
        end in
      Some ("{" ++ String.concat "," (members props) ++ "}")%string
  end.

(** The result of [JSON.stringify] as a value. *)
Definition of_option_string (o : option string) : Value :=
  match o with
  | Some s => Str s
  | None => Undefined
  end.

End JS.

(** ** Data model *)

(** A dropped file, as far as the form looks at it. *)
Record File : Type := mkFile {
  file_name : string;
  file_size : N
}.

(** [type Document = { id?: string; name?: string; file?: File }] *)
Record Document : Type := mkDocument {
  id : option string;
  name : option string;
  file : option File
}.

(** An element of [initialDocuments: { id: string; name: string }[]]. *)
Record InitialDocument : Type := mkInitialDocument {
  initial_id : string;
  initial_name : string
}.

(** [type FormValue = { documents: Document[] }].  An array is truthy, so
    [data.documents || []] is [data.documents]. *)
Record FormValue : Type := mkFormValue {
  documents : list Document
}.

(** [!!document.file]: a [File] object is truthy, an absent one is not. *)
Definition has_file (d : Document) : bool :=
  match file d with
  | Some _ => true
  | None => false
  end.

(** [!!id] on a string: the empty string is falsy. *)
Definition truthy_string (s : string) : bool := negb (s =? EmptyString).

(** [!!id] on an optional string. *)
Definition truthy_id (o : option string) : bool :=
  match o with
  | Some s => truthy_string s
  | None => false
  end.

(** [ids.includes(x)] on strings. *)
Definition includes (ids : list string) (x : string) : bool :=
  existsb (String.eqb x) ids.

(** ** The delta of [onSubmit] (lines 85 to 100) *)

Definition addedDocuments (docs : list Document) : list Document :=
  filter has_file docs.

(** [addedDocuments.map((document) => document.file!)]; every element of
    [addedDocuments] has its file, see [addedFiles_length]. *)
Definition addedFiles (docs : list Document) : list File :=
  flat_map (fun d => match file d with Some f => [f] | None => [] end)
           (addedDocuments docs).

Definition remainedDocuments (docs : list Document) : list Document :=
  filter (fun d => truthy_id (id d)) docs.

(** [remainedDocuments.map(({ id }) => id) as string[]] *)
Definition remainedDocumentIds (docs : list Document) : list string :=
  flat_map (fun d => match id d with Some s => [s] | None => [] end)
           (remainedDocuments docs).

Definition removedDocuments (docs : list Document)
    (initialDocuments : list InitialDocument) : list InitialDocument :=
  filter (fun d => truthy_string (initial_id d)
                   && negb (includes (remainedDocumentIds docs) (initial_id d)))
         initialDocuments.

Definition removedDocumentIds (docs : list Document)
    (initialDocuments : list InitialDocument) : list string :=
  map initial_id (removedDocuments docs initialDocuments).

(** [n || m] on array lengths. *)
Definition or_length (n m : nat) : nat :=
  if Nat.eqb n 0 then m else n.

Definition isAnyFileChanged (docs : list Document)
    (initialDocuments : list InitialDocument) : nat :=
  or_length (List.length (addedFiles docs))
            (List.length (removedDocumentIds docs initialDocuments)).

(** The argument handed to [submitUpdateDocuments]. *)
Record Delta : Type := mkDelta {
  added : list File;
  removed : list string
}.

Definition computeDelta (docs : list Document)
    (initialDocuments : list InitialDocument) : Delta :=
  {| added := addedFiles docs;
     removed := removedDocumentIds docs initialDocuments |}.

(** ** Component state, events and the effect monad *)

(** The two [useState] cells and the [documents] value held by the form. *)
Record State : Type := mkState {
  isUpdating : bool;
  updateProgressMessage : option string;
  formDocuments : list Document
}.

(** What the component does to its surroundings, in call order. *)
Inductive Event : Type :=
| SetUpdating (b : bool)
| SetUpdateProgressMessage (m : option string)
| FormReset (docs : list InitialDocument)
| OnUpdateStart
| OnUpdateEnd (errorMessage : JS.Value)
| SubmitUpdateDocuments (d : Delta)
| AwaitNext.

(** How a statement ends: normally, by [return], or by a throw. *)
Inductive Outcome (A : Type) : Type :=
| Done (a : A)
| Returned
| Thrown (e : JS.Value).
Arguments Done {A} a.
Arguments Returned {A}.
Arguments Thrown {A} e.

Definition M (A : Type) : Type := State -> Outcome A * State * list Event.

Definition outcome {A} (r : Outcome A * State * list Event) : Outcome A :=
  fst (fst r).
Definition final {A} (r : Outcome A * State * list Event) : State :=
  snd (fst r).
Definition trace {A} (r : Outcome A * State * list Event) : list Event :=
  snd r.

Definition ret {A} (a : A) : M A := fun s => (Done a, s, []).

Definition bind {A B} (m : M A) (f : A -> M B) : M B :=
  fun s =>
    match m s with
    | (Done a, s1, t1) => let '(r, s2, t2) := f a s1 in (r, s2, t1 ++ t2)
    | (Returned, s1, t1) => (Returned, s1, t1)
    | (Thrown e, s1, t1) => (Thrown e, s1, t1)
    end.

Notation "x <- m ;; k" := (bind m (fun x => k))
  (at level 61, m at next level, right associativity).
Notation "m ;; k" := (bind m (fun _ => k))
  (at level 61, right associativity).

Definition throw {A} (e : JS.Value) : M A := fun s => (Thrown e, s, []).

(** [return;] *)
Definition return_ {A} : M A := fun s => (Returned, s, []).

Definition lift {A} (c : JS.Completion A) : M A :=
  match c with
  | JS.Normal a => ret a
  | JS.Throw e => throw e
  end.

(** [try { body } catch (e) { handler }] *)
Definition try_catch (body : M unit) (handler : JS.Value -> M unit) : M unit :=
  fun s =>
    match body s with
    | (Thrown e, s1, t1) => let '(r, s2, t2) := handler e s1 in (r, s2, t1 ++ t2)
    | r => r
    end.

(** [try { body } finally { cleanup }]: the cleanup runs however the body
    ended; the body's outcome stands unless the cleanup ends abruptly. *)
Definition try_finally (body : M unit) (cleanup : M unit) : M unit :=
  fun s =>
    let '(r1, s1, t1) := body s in
    let '(r2, s2, t2) := cleanup s1 in
    (match r2 with Done _ => r1 | _ => r2 end, s2, t1 ++ t2).

(** The body of an [async] function: [return] settles the promise. *)
Definition async (body : M unit) : M unit :=
  fun s =>
    match body s with
    | (Returned, s1, t1) => (Done tt, s1, t1)
    | r => r
    end.

Definition setUpdating (b : bool) : M unit :=
  fun s => (Done tt,
            {| isUpdating := b;
               updateProgressMessage := updateProgressMessage s;
               formDocuments := formDocuments s |},
            [SetUpdating b]).

Definition setUpdateProgressMessage (m : option string) : M unit :=
  fun s => (Done tt,
            {| isUpdating := isUpdating s;
               updateProgressMessage := m;
               formDocuments := formDocuments s |},
            [SetUpdateProgressMessage m]).

(** The form value an initial document becomes. *)
Definition of_initial (d : InitialDocument) : Document :=
  {| id := Some (initial_id d); name := Some (initial_name d); file := None |}.

(** [form.reset({ documents: initialDocuments })] *)
Definition form_reset (initialDocuments : list InitialDocument) : M unit :=
  fun s => (Done tt,
            {| isUpdating := isUpdating s;
               updateProgressMessage := updateProgressMessage s;
               formDocuments := map of_initial initialDocuments |},
            [FormReset initialDocuments]).

Definition onUpdateStart : M unit := fun s => (Done tt, s, [OnUpdateStart]).

(** [onUpdateEnd(errorMessage)]; [onUpdateEnd()] passes [undefined]. *)
Definition onUpdateEnd (errorMessage : JS.Value) : M unit :=
  fun s => (Done tt, s, [OnUpdateEnd errorMessage]).

(** The state after the setter calls of a log. *)
Definition apply_event (s : State) (ev : Event) : State :=
  match ev with
  | SetUpdating b =>
      {| isUpdating := b;
         updateProgressMessage := updateProgressMessage s;
         formDocuments := formDocuments s |}
  | SetUpdateProgressMessage m =>
      {| isUpdating := isUpdating s;
         updateProgressMessage := m;
         formDocuments := formDocuments s |}
  | FormReset docs =>
      {| isUpdating := isUpdating s;
         updateProgressMessage := updateProgressMessage s;
         formDocuments := map of_initial docs |}
  | OnUpdateStart | OnUpdateEnd _ | SubmitUpdateDocuments _ | AwaitNext => s
  end.

Definition replay (s : State) (log : list Event) : State :=
  fold_left apply_event log s.

(** ** The progress stream *)

(** What the asynchronous generator does when it is pulled: it yields a
    message and goes on, it completes, or it rejects with a value. *)
Inductive Progress : Type :=
| Complete
| Reject (e : JS.Value)
| Yield (progressMessage : string) (rest : Progress).

(** [for await (const progressMessage of updateProgress) { body }] *)
Fixpoint for_await (updateProgress : Progress) (body : string -> M unit)
    : M unit :=
  match updateProgress with
  | Complete => fun s => (Done tt, s, [AwaitNext])
  | Reject e => fun s => (Thrown e, s, [AwaitNext])
  | Yield progressMessage rest =>
      (fun s => (Done tt, s, [AwaitNext])) ;;
      body progressMessage ;;
      for_await rest body
  end.

(** ** [onSubmit] and the effect on [initialDocuments] *)

(** [(e as any).message || JSON.stringify(e) || e] (line 118) *)
Definition errorMessage (e : JS.Value) : JS.Completion JS.Value :=
  match JS.get_message e with
  | JS.Throw x => JS.Throw x
  | JS.Normal m =>
      JS.Normal (JS.or (JS.or m (JS.of_option_string (JS.stringify e))) e)
  end.

Section Component.

(** [submitUpdateDocuments] of [@/lib/document-loaders], an asynchronous
    generator function: the call itself returns, and this is, for a
    delta, the behaviour of the stream it returns. *)
Variable submitUpdateDocuments : Delta -> Progress.

Variable initialDocuments : list InitialDocument.

(** Lines 79 to 124, with parent callbacks that return. *)
Definition onSubmit (data : FormValue) : M unit :=
  async (
    setUpdating true ;;
    onUpdateStart ;;
    try_finally
      (try_catch
         (let docs := documents data in
          let addedFiles := addedFiles docs in
          let removedDocumentIds := removedDocumentIds docs initialDocuments in
          let isAnyFileChanged :=
            or_length (List.length addedFiles) (List.length removedDocumentIds) in
          (if Nat.eqb isAnyFileChanged 0
           then onUpdateEnd JS.Undefined ;; return_
           else ret tt) ;;
          let delta := {| added := addedFiles; removed := removedDocumentIds |} in
          updateProgress <-
            (fun s => (Done (submitUpdateDocuments delta), s,
                       [SubmitUpdateDocuments delta])) ;;
          for_await updateProgress
            (fun progressMessage =>
               setUpdateProgressMessage (Some progressMessage)) ;;
          onUpdateEnd JS.Undefined)
         (fun e =>
            errorMessage <- lift (errorMessage e) ;;
            onUpdateEnd errorMessage))
      (setUpdating false ;;
       setUpdateProgressMessage None)).

End Component.

(** The effect of lines 72 to 77, run when [initialDocuments] changes. *)
Definition onInitialDocumentsChange (initialDocuments : list InitialDocument)
    : M unit :=
  setUpdating false ;;
  form_reset initialDocuments.

(** ** The rendered progress text (lines 227 to 241) *)

(** The text of the progress paragraph, when it is rendered: the notice
    is rendered only while [isUpdating], and the paragraph inside it only
    for a truthy [updateProgressMessage]. *)
Definition progressText (s : State) : option string :=
  if isUpdating s then
    match updateProgressMessage s with
    | Some m => if truthy_string m then Some m else None
    | None => None
    end
  else None.

(** [disabled={isUpdating}] on the submit button. *)
Definition saveDisabled (s : State) : bool := isUpdating s.

(** ** The delta in the words of the specification *)

(** The file payloads of the documents that carry one, in order. *)
Fixpoint filePayloads (docs : list Document) : list File :=
  match docs with
  | [] => []
  | d :: rest =>
      match file d with
      | Some f => f :: filePayloads rest
      | None => filePayloads rest
      end
  end.

(** The ids of the documents present in the edit state. *)
Fixpoint editIds (docs : list Document) : list string :=
  match docs with
  | [] => []
  | d :: rest =>
      match id d with
      | Some s => s :: editIds rest
      | None => editIds rest
      end
  end.

Definition initialIds (initialDocuments : list InitialDocument) : list string :=
  map initial_id initialDocuments.

(** "Every id present in InitialSet whose value does not occur among the
    ids of documents still present in EditState". *)
Definition removedIds_as_specified (docs : list Document)
    (initialDocuments : list InitialDocument) (ids : list string) : Prop :=
  forall x, In x ids <->
            In x (initialIds initialDocuments) /\ ~ In x (editIds docs).

(** The same with the code's guard: only a non-empty id is reported. *)
Definition nonEmptyMissingIds (docs : list Document)
    (initialDocuments : list InitialDocument) : list string :=
  filter (fun x => truthy_string x && negb (includes (editIds docs) x))
         (initialIds initialDocuments).

(** "Exactly one originally-present id is missing": [x] is an initial id
    that no document of the edit state carries, and it is the only one. *)
Definition only_missing_id (x : string) (docs : list Document)
    (initialDocuments : list InitialDocument) : Prop :=
  In x (initialIds initialDocuments) /\
  ~ In x (editIds docs) /\
  (forall y, In y (initialIds initialDocuments) -> ~ In y (editIds docs) -> y = x).

(** The edit state retains every original id. *)
Definition retains_every_id (docs : list Document)
    (initialDocuments : list InitialDocument) : Prop :=
  forall x, In x (initialIds initialDocuments) -> In x (editIds docs).

(** ** Reading a run of [onSubmit] *)

(** The delta with nothing to do. *)
Definition emptyDelta : Delta := {| added := []; removed := [] |}.

(** The events of consuming a stream with the loop of line 112: a pull,
    then the message shown, for each message; one last pull that finds
    the stream completed or rejected. *)
Fixpoint pulls (p : Progress) : list Event :=
  match p with
  | Complete | Reject _ => [AwaitNext]
  | Yield m rest => AwaitNext :: SetUpdateProgressMessage (Some m) :: pulls rest
  end.

(** How a stream ends: [None] when it completes, the rejection otherwise. *)
Fixpoint ending (p : Progress) : option JS.Value :=
  match p with
  | Complete => None
  | Reject e => Some e
  | Yield _ rest => ending rest
  end.

(** The last message a stream shows, [m0] when it shows none. *)
Fixpoint lastMessage (p : Progress) (m0 : option string) : option string :=
  match p with
  | Complete | Reject _ => m0
  | Yield m rest => lastMessage rest (Some m)
  end.

(** The state every run of [onSubmit] ends in. *)
Definition cleared (s : State) : State :=
  {| isUpdating := false;
     updateProgressMessage := None;
     formDocuments := formDocuments s |}.

(** The two calls of the [finally] block. *)
Definition cleanup_events : list Event :=
  [SetUpdating false; SetUpdateProgressMessage None].

(** What the parent boundary sees of a log. *)
Definition is_boundary (ev : Event) : bool :=
  match ev with
  | OnUpdateStart | OnUpdateEnd _ => true
  | _ => false
  end.

Definition is_submission (ev : Event) : bool :=
  match ev with
  | SubmitUpdateDocuments _ => true
  | _ => false
  end.

Definition is_end_notification (ev : Event) : bool :=
  match ev with
  | OnUpdateEnd _ => true
  | _ => false
  end.

Definition is_form_reset (ev : Event) : bool :=
  match ev with
  | FormReset _ => true
  | _ => false
  end.

(** [undefined] and [null]. *)
Definition nullish (v : JS.Value) : bool :=
  match v with
  | JS.Undefined | JS.Null => true
  | _ => false
  end.

(** The display value in the order the specification gives: the message
    field when it is truthy, otherwise the serialised form when there is
    one, otherwise the raw error value. *)
Definition display_as_specified (e : JS.Value) : JS.Value :=
  match JS.get_message e with
  | JS.Normal m =>
      if JS.truthy m then m
      else match JS.stringify e with
           | Some j => if truthy_string j then JS.Str j else e
           | None => e
           end
  | JS.Throw _ => e
  end.

(** What the [catch] block adds to the log for a stream ending. *)
Definition end_notification (end_ : option JS.Value) : list Event :=
  match end_ with
  | None => [OnUpdateEnd JS.Undefined]
  | Some e =>
      match errorMessage e with
      | JS.Normal m => [OnUpdateEnd m]
      | JS.Throw _ => []
      end
  end.

(** How [onSubmit] ends for a stream ending. *)
Definition end_outcome (end_ : option JS.Value) : Outcome unit :=
  match end_ with
  | None => Done tt
  | Some e =>
      match errorMessage e with
      | JS.Normal _ => Done tt
      | JS.Throw x => Thrown x
      end
  end.

(** ** Sample data *)

Definition idle : State :=
  {| isUpdating := false; updateProgressMessage := None; formDocuments := [] |}.

Definition c_pdf : File := {| file_name := "c.pdf"; file_size := 1024 |}.

Definition two_initial : list InitialDocument :=
  [ {| initial_id := "1"; initial_name := "a.pdf" |};
    {| initial_id := "2"; initial_name := "b.docx" |} ].

(** The user removed the entry of id 2 and dropped c.pdf. *)
Definition edited : list Document :=
  [ {| id := Some "1"; name := Some "a.pdf"; file := None |};
    {| id := None; name := Some "c.pdf"; file := Some c_pdf |} ].

(** An initial document whose id is the empty string. *)
Definition unnamed_initial : list InitialDocument :=
  [ {| initial_id := EmptyString; initial_name := "a.pdf" |} ].

(** A stream that reports twice and completes. *)
Definition two_messages (_ : Delta) : Progress :=
  Yield "uploading c.pdf" (Yield "done" Complete).

(** A stream that reports once and rejects with [e]. *)
Definition rejects_with (e : JS.Value) (_ : Delta) : Progress :=
  Yield "uploading c.pdf" (Reject e).

(** A persisted document of id 1 on which a file was dropped again. *)
Definition replaced : Document :=
  {| id := Some "1"; name := Some "a.pdf"; file := Some c_pdf |}.


(** An error object without a message field. *)
Definition status_500 : JS.Value := JS.Obj [("code", JS.Num 500)].

(** The edit state right after the form opened on [two_initial]. *)
Definition untouched : list Document := map of_initial two_initial.

(** A submission in flight: busy, with a progress text on display. *)
Definition uploading : State :=
  {| isUpdating := true;
     updateProgressMessage := Some "uploading c.pdf";
     formDocuments := edited |}.


(** ** Editing the form value (lines 136 to 223) *)

(** [v || []] on an array that may be missing. *)
Definition or_empty {A} (v : option (list A)) : list A :=
  match v with
  | Some l => l
  | None => []
  end.

(** The document made of a dropped file (lines 155 to 158). *)
Definition of_file (f : File) : Document :=
  {| id := None; name := Some (file_name f); file := Some f |}.

(** [onFileDropped] (lines 154 to 163): the value handed to
    [field.onChange]. *)
Definition onFileDropped (value : option (list Document))
    (newFiles : option (list File)) : list Document :=
  let newDocuments := map of_file (or_empty newFiles) in
  or_empty value ++ newDocuments.

(** [l.filter((x, i) => p(x, i))], the indices counted from [i]. *)
Fixpoint filter_index {A} (p : A -> nat -> bool) (i : nat) (l : list A)
    : list A :=
  match l with
  | [] => []
  | x :: rest =>
      if p x i then x :: filter_index p (S i) rest
      else filter_index p (S i) rest
  end.

(** The click on the delete button of row [index] (lines 190 to 196):
    the value handed to [field.onChange]. *)
Definition onRemoveClick (value : option (list Document)) (index : nat)
    : list Document :=
  filter_index (fun _ i => negb (Nat.eqb i index)) 0 (or_empty value).

(** [defaultValues] of [useForm] (lines 61 to 66). *)
Definition defaultValues (initialDocuments : list InitialDocument)
    : FormValue :=
  {| documents := map of_initial initialDocuments |}.

(** [formSchema] (lines 36 to 44) on a form value: [id] and [file] may be
    missing, [name] must be a string. *)
Definition formSchema (data : FormValue) : bool :=
  forallb (fun d => match name d with Some _ => true | None => false end)
          (documents data).

(** ** The rendered rows (lines 172 to 214) *)

Inductive Badge : Type := ADD | REMOVE.

(** The React key of a row: the index for a document of the form value,
    the id for a removed document. *)
Inductive RowKey : Type :=
| KeyIndex (index : nat)
| KeyId (id : string).

Record Row : Type := mkRow {
  row_key : RowKey;
  row_badge : option Badge;
  row_name : option string
}.

(** [l.map((x, index) => f(x, index))], the indices counted from [i]. *)
Fixpoint map_index {A B} (f : A -> nat -> B) (i : nat) (l : list A)
    : list B :=
  match l with
  | [] => []
  | x :: rest => f x i :: map_index f (S i) rest
  end.

(** The rows of the form value (lines 172 to 201). *)
Definition documentRows (value : option (list Document)) : list Row :=
  map_index (fun document index =>
               {| row_key := KeyIndex index;
                  row_badge := if has_file document then Some ADD else None;
                  row_name := name document |})
            0 (or_empty value).

(** The rows of the removed documents (lines 137 to 145 and 202 to 214);
    the render function computes them as [onSubmit] does. *)
Definition removedRows (value : option (list Document))
    (initialDocuments : list InitialDocument) : list Row :=
  map (fun document =>
         {| row_key := KeyId (initial_id document);
            row_badge := Some REMOVE;
            row_name := Some (initial_name document) |})
      (removedDocuments (or_empty value) initialDocuments).

Definition renderedRows (value : option (list Document))
    (initialDocuments : list InitialDocument) : list Row :=
  documentRows value ++ removedRows value initialDocuments.

Definition has_badge (r : Row) : bool :=
  match row_badge r with
  | Some _ => true
  | None => false
  end.

Definition is_add (r : Row) : bool :=
  match row_badge r with
  | Some ADD => true
  | _ => false
  end.

(** ** More ways to read a log *)

(** The messages of a stream, in the order it yields them. *)
Fixpoint messages (p : Progress) : list string :=
  match p with
  | Complete | Reject _ => []
  | Yield m rest => m :: messages rest
  end.

Definition is_progress (ev : Event) : bool :=
  match ev with
  | SetUpdateProgressMessage _ => true
  | _ => false
  end.

Definition is_set_updating (ev : Event) : bool :=
  match ev with
  | SetUpdating _ => true
  | _ => false
  end.

Definition is_pull (ev : Event) : bool :=
  match ev with
  | AwaitNext => true
  | _ => false
  end.

Definition is_start_notification (ev : Event) : bool :=
  match ev with
  | OnUpdateStart => true
  | _ => false
  end.

(** ** The theme toggle *)

Module ThemeToggle.

(** [theme] of [useTheme()]: a string, or [undefined] before the theme
    is known. *)
Definition Theme : Type := option string.

(** [theme === 'light' ? 'dark' : 'light'] (line 20) *)
Definition toggled (theme : Theme) : string :=
  match theme with
  | Some t => if t =? "light" then "dark" else "light"
  | None => "light"
  end.

(** The click handler (lines 18 to 22): [setTheme] stores its argument. *)
Definition onClick (theme : Theme) : Theme := Some (toggled theme).

Inductive Icon : Type := MoonIcon | SunIcon.

(** [!theme ? null : theme === 'dark' ? <MoonIcon/> : <SunIcon/>]
    (lines 24 to 28) *)
Definition icon (theme : Theme) : option Icon :=
  match theme with
  | None => None
  | Some t =>
      if t =? EmptyString then None
      else if t =? "dark" then Some MoonIcon
      else Some SunIcon
  end.

End ThemeToggle.

(** ** [onSubmit] in its surroundings *)

Module Surroundings.

(** What the parent's callbacks do when [onSubmit] calls them: [None]
    when the call returns, the thrown value when it throws.  One run
    calls [onUpdateStart()] once (line 81), [onUpdateEnd()] at most once
    (line 103 or line 116) and [onUpdateEnd(errorMessage)] at most once
    (line 119). *)
Record Parent : Type := mkParent {
  start_throws : option JS.Value;
  end_throws : option JS.Value;
  end_message_throws : JS.Value -> option JS.Value
}.

(** The parent whose callbacks return. *)
Definition returning : Parent :=
  {| start_throws := None;
     end_throws := None;
     end_message_throws := fun _ => None |}.

(** An event with the state of the component right after it. *)
Definition Snapshot : Type := (Event * State)%type.

Definition M (A : Type) : Type := State -> Outcome A * State * list Snapshot.

Definition outcome {A} (r : Outcome A * State * list Snapshot) : Outcome A :=
  fst (fst r).
Definition final {A} (r : Outcome A * State * list Snapshot) : State :=
  snd (fst r).
Definition log {A} (r : Outcome A * State * list Snapshot) : list Snapshot :=
  snd r.
Definition events {A} (r : Outcome A * State * list Snapshot) : list Event :=
  map fst (snd r).

Definition ret {A} (a : A) : M A := fun s => (Done a, s, []).

Definition bind {A B} (m : M A) (f : A -> M B) : M B :=
  fun s =>
    match m s with
    | (Done a, s1, t1) => let '(r, s2, t2) := f a s1 in (r, s2, t1 ++ t2)
    | (Returned, s1, t1) => (Returned, s1, t1)
    | (Thrown e, s1, t1) => (Thrown e, s1, t1)
    end.

Declare Scope surroundings_scope.
Delimit Scope surroundings_scope with surroundings.
Notation "x <- m ;; k" := (bind m (fun x => k))
  (at level 61, m at next level, right associativity) : surroundings_scope.
Notation "m ;; k" := (bind m (fun _ => k))
  (at level 61, right associativity) : surroundings_scope.
Local Open Scope surroundings_scope.

Definition throw {A} (e : JS.Value) : M A := fun s => (Thrown e, s, []).

Definition return_ {A} : M A := fun s => (Returned, s, []).

Definition lift {A} (c : JS.Completion A) : M A :=
  match c with
  | JS.Normal a => ret a
  | JS.Throw e => throw e
  end.

Definition try_catch (body : M unit) (handler : JS.Value -> M unit) : M unit :=
  fun s =>
    match body s with
    | (Thrown e, s1, t1) => let '(r, s2, t2) := handler e s1 in (r, s2, t1 ++ t2)
    | r => r
    end.

Definition try_finally (body : M unit) (cleanup : M unit) : M unit :=
  fun s =>
    let '(r1, s1, t1) := body s in
    let '(r2, s2, t2) := cleanup s1 in
    (match r2 with Done _ => r1 | _ => r2 end, s2, t1 ++ t2).

Definition async (body : M unit) : M unit :=
  fun s =>
    match body s with
    | (Returned, s1, t1) => (Done tt, s1, t1)
    | r => r
    end.

Definition with_updating (b : bool) (s : State) : State :=
  {| isUpdating := b;
     updateProgressMessage := updateProgressMessage s;
     formDocuments := formDocuments s |}.

Definition with_message (m : option string) (s : State) : State :=
  {| isUpdating := isUpdating s;
     updateProgressMessage := m;
     formDocuments := formDocuments s |}.

Definition setUpdating (b : bool) : M unit :=
  fun s => (Done tt, with_updating b s, [(SetUpdating b, with_updating b s)]).

Definition setUpdateProgressMessage (m : option string) : M unit :=
  fun s => (Done tt, with_message m s,
            [(SetUpdateProgressMessage m, with_message m s)]).

(** A call of a parent callback: the call is logged, then it returns or
    throws. *)
Definition call (ev : Event) (throws : option JS.Value) : M unit :=
  fun s => (match throws with None => Done tt | Some e => Thrown e end,
            s, [(ev, s)]).

Fixpoint for_await (updateProgress : Progress) (body : string -> M unit)
    : M unit :=
  match updateProgress with
  | Complete => fun s => (Done tt, s, [(AwaitNext, s)])
  | Reject e => fun s => (Thrown e, s, [(AwaitNext, s)])
  | Yield progressMessage rest =>
      (fun s => (Done tt, s, [(AwaitNext, s)])) ;;
      body progressMessage ;;
      for_await rest body
  end.

Section Component.

(** [JSON.stringify]: its result ([None] for [undefined]), or what it
    throws. *)
Variable JSON_stringify : JS.Value -> JS.Completion (option string).

Variable submitUpdateDocuments : Delta -> Progress.

Variable initialDocuments : list InitialDocument.

Variable parent : Parent.

(** [(e as any).message || JSON.stringify(e) || e] (line 118): an
    operand of [||] is evaluated only when the ones before it are falsy. *)
Definition errorMessage (e : JS.Value) : JS.Completion JS.Value :=
  match JS.get_message e with
  | JS.Throw x => JS.Throw x
  | JS.Normal m =>
      if JS.truthy m then JS.Normal m
      else
        match JSON_stringify e with
        | JS.Throw x => JS.Throw x
        | JS.Normal j => JS.Normal (JS.or (JS.of_option_string j) e)
        end
  end.

(** Lines 79 to 124. *)
Definition onSubmit (data : FormValue) : M unit :=
  async (
    setUpdating true ;;
    call OnUpdateStart (start_throws parent) ;;
    try_finally
      (try_catch
         (let docs := documents data in
          let addedFiles := addedFiles docs in
          let removedDocumentIds := removedDocumentIds docs initialDocuments in
          let isAnyFileChanged :=
            or_length (List.length addedFiles) (List.length removedDocumentIds) in
          (if Nat.eqb isAnyFileChanged 0
           then call (OnUpdateEnd JS.Undefined) (end_throws parent) ;; return_
           else ret tt) ;;
          let delta := {| added := addedFiles; removed := removedDocumentIds |} in
          updateProgress <-
            (fun s => (Done (submitUpdateDocuments delta), s,
                       [(SubmitUpdateDocuments delta, s)])) ;;
          for_await updateProgress
            (fun progressMessage =>
               setUpdateProgressMessage (Some progressMessage)) ;;
          call (OnUpdateEnd JS.Undefined) (end_throws parent))
         (fun e =>
            errorMessage <- lift (errorMessage e) ;;
            call (OnUpdateEnd errorMessage)
                 (end_message_throws parent errorMessage)))
      (setUpdating false ;;
       setUpdateProgressMessage None)).

(** *** Reading a run *)

(** The snapshots of consuming a stream from state [s]. *)
Fixpoint pulls_at (p : Progress) (s : State) : list Snapshot :=
  match p with
  | Complete | Reject _ => [(AwaitNext, s)]
  | Yield m rest =>
      (AwaitNext, s)
        :: (SetUpdateProgressMessage (Some m), with_message (Some m) s)
        :: pulls_at rest (with_message (Some m) s)
  end.

(** The state after consuming a stream from state [s]. *)
Fixpoint after_pulls (p : Progress) (s : State) : State :=
  match p with
  | Complete | Reject _ => s
  | Yield m rest => after_pulls rest (with_message (Some m) s)
  end.

(** The [try] block from state [s]: what it throws ([None] when it
    ends without a throw), the state it ends in, its snapshots. *)
Definition try_block (data : FormValue) (s : State)
    : option JS.Value * State * list Snapshot :=
  let delta := computeDelta (documents data) initialDocuments in
  if Nat.eqb (isAnyFileChanged (documents data) initialDocuments) 0
  then (end_throws parent, s, [(OnUpdateEnd JS.Undefined, s)])
  else
    let p := submitUpdateDocuments delta in
    let s1 := after_pulls p s in
    match ending p with
    | Some e => (Some e, s1, (SubmitUpdateDocuments delta, s) :: pulls_at p s)
    | None =>
        (end_throws parent, s1,
         (SubmitUpdateDocuments delta, s) :: pulls_at p s
           ++ [(OnUpdateEnd JS.Undefined, s1)])
    end.

(** The [catch] block for the thrown value [e], from state [s]. *)
Definition catch_block (e : JS.Value) (s : State)
    : Outcome unit * list Snapshot :=
  match errorMessage e with
  | JS.Throw x => (Thrown x, [])
  | JS.Normal m =>
      (match end_message_throws parent m with
       | None => Done tt
       | Some x => Thrown x
       end,
       [(OnUpdateEnd m, s)])
  end.

(** The [finally] block from state [s]. *)
Definition finally_block (s : State) : list Snapshot :=
  [(SetUpdating false, with_updating false s);
   (SetUpdateProgressMessage None, cleared s)].

End Component.

(** [JS.stringify] as a [JSON.stringify] that does not throw. *)
Definition total_stringify (v : JS.Value) : JS.Completion (option string) :=
  JS.Normal (JS.stringify v).

(** A parent whose [onUpdateStart] throws. *)
Definition failing_start : Parent :=
  {| start_throws := Some (JS.Error "Error" "parent failed");
     end_throws := None;
     end_message_throws := fun _ => None |}.

(** A [JSON.stringify] that throws on every value, as the real one does
    on a BigInt or on a cyclic object. *)
Definition throwing_stringify (v : JS.Value)
    : JS.Completion (option string) :=
  JS.Throw (JS.TypeError "Converting circular structure to JSON").

End Surroundings.
(** ** Facts about the delta *)

Lemma truthy_string_true (s : string) :
  truthy_string s = true <-> s <> EmptyString.
Proof.
  unfold truthy_string. rewrite negb_true_iff. apply String.eqb_neq.
Qed.

Lemma truthy_string_false (s : string) :
  truthy_string s = false <-> s = EmptyString.
Proof.
  unfold truthy_string. rewrite negb_false_iff. apply String.eqb_eq.
Qed.

Lemma includes_true (ids : list string) (x : string) :
  includes ids x = true <-> In x ids.
Proof.
  unfold includes. rewrite existsb_exists. split.
  - intros [y [Hy Heq]]. apply String.eqb_eq in Heq. now subst.
  - intros H. exists x. split; [assumption | apply String.eqb_refl].
Qed.

Lemma includes_false (ids : list string) (x : string) :
  includes ids x = false <-> ~ In x ids.
Proof.
  rewrite <- includes_true. destruct (includes ids x); split; congruence.
Qed.

(** The projection [document.file!] drops nothing. *)
Lemma addedFiles_length (docs : list Document) :
  List.length (addedFiles docs) = List.length (addedDocuments docs).
Proof.
  unfold addedFiles, addedDocuments.
  induction docs as [| d rest IH]; simpl; [reflexivity |].
  change (has_file d) with (match file d with Some _ => true | None => false end).
  destruct (file d) eqn:E; simpl.
  - rewrite E. simpl. now rewrite IH.
  - exact IH.
Qed.

Lemma addedFiles_payloads (docs : list Document) :
  addedFiles docs = filePayloads docs.
Proof.
  unfold addedFiles, addedDocuments.
  induction docs as [| d rest IH]; simpl; [reflexivity |].
  change (has_file d) with (match file d with Some _ => true | None => false end).
  destruct (file d) eqn:E; simpl.
  - rewrite E. simpl. now rewrite IH.
  - exact IH.
Qed.

(** The ids kept by [remainedDocumentIds] are the non-empty edit ids. *)
Lemma remainedDocumentIds_editIds (docs : list Document) :
  remainedDocumentIds docs = filter truthy_string (editIds docs).
Proof.
  unfold remainedDocumentIds, remainedDocuments.
  induction docs as [| d rest IH]; simpl; [reflexivity |].
  destruct (id d) as [s |] eqn:E; simpl.
  - destruct (truthy_string s) eqn:T; simpl.
    + rewrite E. simpl. now rewrite IH.
    + exact IH.
  - exact IH.
Qed.

Lemma In_remainedDocumentIds (docs : list Document) (x : string) :
  In x (remainedDocumentIds docs) <-> In x (editIds docs) /\ x <> EmptyString.
Proof.
  rewrite remainedDocumentIds_editIds, filter_In, truthy_string_true.
  reflexivity.
Qed.

Lemma map_filter_commute {A B} (f : A -> B) (p : B -> bool) (l : list A) :
  map f (filter (fun a => p (f a)) l) = filter p (map f l).
Proof.
  induction l as [| a l IH]; simpl; [reflexivity |].
  destruct (p (f a)); simpl; now rewrite IH.
Qed.

(** For a non-empty id, [includes] answers the same on the kept ids and
    on all the edit ids; for the empty one the guard has already failed. *)
Lemma removal_test_editIds (docs : list Document) (x : string) :
  truthy_string x && negb (includes (remainedDocumentIds docs) x)
  = truthy_string x && negb (includes (editIds docs) x).
Proof.
  destruct (truthy_string x) eqn:T; simpl; [| reflexivity].
  apply truthy_string_true in T. f_equal.
  destruct (includes (editIds docs) x) eqn:I.
  - apply includes_true. apply In_remainedDocumentIds.
    split; [now apply includes_true | assumption].
  - apply includes_false. intros H. apply In_remainedDocumentIds in H.
    apply includes_false in I. tauto.
Qed.

Lemma removedDocumentIds_filter (docs : list Document)
    (initialDocuments : list InitialDocument) :
  removedDocumentIds docs initialDocuments
  = nonEmptyMissingIds docs initialDocuments.
Proof.
  unfold removedDocumentIds, removedDocuments, nonEmptyMissingIds, initialIds.
  rewrite <- map_filter_commute. f_equal.
  apply filter_ext. intros d. apply removal_test_editIds.
Qed.

Lemma In_removedDocumentIds (docs : list Document)
    (initialDocuments : list InitialDocument) (x : string) :
  In x (removedDocumentIds docs initialDocuments) <->
  In x (initialIds initialDocuments) /\ x <> EmptyString /\ ~ In x (editIds docs).
Proof.
  rewrite removedDocumentIds_filter. unfold nonEmptyMissingIds.
  rewrite filter_In, andb_true_iff, negb_true_iff.
  rewrite truthy_string_true, includes_false. tauto.
Qed.

(** A duplicate-free list whose elements are all [x], and which holds
    [x], is the singleton. *)
Lemma NoDup_all_equal {A} (x : A) (l : list A) :
  NoDup l -> (forall y, In y l <-> y = x) -> l = [x].
Proof.
  intros Hnd Hall. destruct l as [| a [| b l]].
  - exfalso. apply (proj2 (Hall x) eq_refl).
  - f_equal. apply Hall. now left.
  - exfalso. inversion Hnd as [| ? ? Hnotin _]; subst. apply Hnotin.
    assert (a = x) by (apply Hall; now left).
    assert (b = x) by (apply Hall; right; now left).
    subst. now left.
Qed.

(** ** The delta: claims C1, C7, C9 and C10 *)

(** C1, as stated, fails: with an initial document whose id is the empty
    string and an empty edit state, that id is present in InitialSet and
    occurs among no ids of EditState, yet [removedDocumentIds] is empty. *)
Lemma C1_counterexample :
  ~ (addedFiles [] = filePayloads [] /\
     removedIds_as_specified [] unnamed_initial
       (removedDocumentIds [] unnamed_initial)).
Proof.
  intros [_ H]. specialize (H EmptyString).
  assert (Hin : In EmptyString (removedDocumentIds [] unnamed_initial)).
  { apply H. split; [now left | intros []]. }
  exact Hin.
Qed.

(** C1, amended: [added] is the sequence of file payloads of the documents
    of the edit state that carry one, in edit-state order; [removedIds] is
    the sequence of the non-empty ids of InitialSet (in InitialSet order)
    that do not occur among the ids of the documents of the edit state. *)
Theorem C1_delta (docs : list Document)
    (initialDocuments : list InitialDocument) :
  added (computeDelta docs initialDocuments) = filePayloads docs /\
  removed (computeDelta docs initialDocuments)
    = nonEmptyMissingIds docs initialDocuments /\
  (forall x, In x (removed (computeDelta docs initialDocuments)) <->
             In x (initialIds initialDocuments) /\
             x <> EmptyString /\
             ~ In x (editIds docs)).
Proof.
  simpl. split; [apply addedFiles_payloads |].
  split; [apply removedDocumentIds_filter |].
  intros x. apply In_removedDocumentIds.
Qed.

(** C7, as stated, fails: the only missing original id may be the empty
    string, and then [removedDocumentIds] does not contain it. *)
Lemma C7_counterexample :
  only_missing_id EmptyString [] unnamed_initial /\
  ~ In EmptyString (removedDocumentIds [] unnamed_initial).
Proof.
  split.
  - split; [now left |]. split; [intros [] |].
    intros y [Hy | []] _. now symmetry.
  - intros [].
Qed.

(** C7, amended: when exactly one id of InitialSet is missing from the
    ids of the edit state and that id is not the empty string, the
    members of [removedIds] are exactly that id; when InitialSet lists no
    id twice, [removedIds] is the one-element list of that id. *)
Theorem C7_single_removed (x : string) (docs : list Document)
    (initialDocuments : list InitialDocument)
    (Hmissing : only_missing_id x docs initialDocuments)
    (Hnonempty : x <> EmptyString) :
  (forall y, In y (removedDocumentIds docs initialDocuments) <-> y = x) /\
  (NoDup (initialIds initialDocuments) ->
   removedDocumentIds docs initialDocuments = [x]).
Proof.
  destruct Hmissing as [Hin [Hnot Honly]].
  assert (Hall : forall y,
             In y (removedDocumentIds docs initialDocuments) <-> y = x).
  { intros y. rewrite In_removedDocumentIds. split.
    - intros [Hy [_ Hy']]. now apply Honly.
    - intros ->. tauto. }
  split; [exact Hall |].
  intros Hnd. apply NoDup_all_equal; [| exact Hall].
  rewrite removedDocumentIds_filter. now apply NoDup_filter.
Qed.

Lemma C7_single_removed_witness :
  removedDocumentIds edited two_initial = ["2"].
Proof.
  apply (C7_single_removed "2" edited two_initial).
  - split; [right; now left |]. split.
    + simpl. intros [H | []]. discriminate H.
    + simpl. intros y [<- | [<- | []]] Hy.
      * exfalso. apply Hy. now left.
      * reflexivity.
  - discriminate.
  - simpl. repeat constructor; simpl; intuition discriminate.
Defined.

(** C9: an InitialSet entry whose id is the empty string is never among
    the removed documents, whatever the edit state holds; every removed
    entry has a truthy, that is non-empty, id. *)
Theorem C9_empty_id_never_removed (docs : list Document)
    (initialDocuments : list InitialDocument) :
  ~ In EmptyString (removedDocumentIds docs initialDocuments) /\
  Forall (fun d => initial_id d <> EmptyString)
         (removedDocuments docs initialDocuments) /\
  Forall (fun x => truthy_string x = true)
         (removedDocumentIds docs initialDocuments).
Proof.
  assert (Hdocs : Forall (fun d => initial_id d <> EmptyString)
                         (removedDocuments docs initialDocuments)).
  { apply Forall_forall. intros d Hd. unfold removedDocuments in Hd.
    apply filter_In in Hd. destruct Hd as [_ Hd].
    apply andb_true_iff in Hd. now apply truthy_string_true. }
  split; [| split].
  - rewrite In_removedDocumentIds. tauto.
  - exact Hdocs.
  - unfold removedDocumentIds. apply Forall_map.
    eapply Forall_impl; [| exact Hdocs].
    intros d Hd. now apply truthy_string_true.
Qed.

(** C10: an entry of the edit state with a non-empty id and a file payload
    counts in both roles: its file is in [added], its id is among the
    remaining ids, and so its id is in [removedIds] for no InitialSet. *)
Theorem C10_both_roles (docs : list Document) (d : Document)
    (s : string) (f : File)
    (Hd : In d docs)
    (Hid : id d = Some s)
    (Hnonempty : s <> EmptyString)
    (Hfile : file d = Some f) :
  In f (addedFiles docs) /\
  In s (remainedDocumentIds docs) /\
  (forall initialDocuments,
     ~ In s (removedDocumentIds docs initialDocuments)).
Proof.
  assert (Hs : In s (editIds docs)).
  { clear Hfile. induction docs as [| d' rest IH]; [contradiction |].
    simpl. destruct Hd as [-> | Hd].
    - rewrite Hid. now left.
    - destruct (id d'); [right |]; now apply IH. }
  split; [| split].
  - rewrite addedFiles_payloads. clear Hs Hid.
    induction docs as [| d' rest IH]; [contradiction |].
    simpl. destruct Hd as [-> | Hd].
    + rewrite Hfile. now left.
    + destruct (file d'); [right |]; now apply IH.
  - apply In_remainedDocumentIds. now split.
  - intros initialDocuments Hin.
    apply In_removedDocumentIds in Hin. tauto.
Qed.

Lemma C10_both_roles_witness :
  In c_pdf (addedFiles [replaced]) /\
  In "1" (remainedDocumentIds [replaced]) /\
  (forall initialDocuments,
     ~ In "1" (removedDocumentIds [replaced] initialDocuments)).
Proof.
  apply (C10_both_roles [replaced] replaced "1" c_pdf).
  - now left.
  - reflexivity.
  - discriminate.
  - reflexivity.
Defined.

(** ** Runs of [onSubmit] *)

Lemma or_length_zero (n m : nat) : or_length n m = 0 <-> n = 0 /\ m = 0.
Proof.
  unfold or_length. destruct n; simpl; intuition congruence.
Qed.

Lemma isAnyFileChanged_zero (docs : list Document)
    (initialDocuments : list InitialDocument) :
  isAnyFileChanged docs initialDocuments = 0 <->
  computeDelta docs initialDocuments = emptyDelta.
Proof.
  unfold isAnyFileChanged, computeDelta, emptyDelta.
  rewrite or_length_zero. split.
  - intros [Ha Hr].
    apply length_zero_iff_nil in Ha. apply length_zero_iff_nil in Hr.
    now rewrite Ha, Hr.
  - intros H. injection H as Ha Hr. now rewrite Ha, Hr.
Qed.

Lemma for_await_run (p : Progress) (s : State) :
  for_await p (fun m => setUpdateProgressMessage (Some m)) s
  = (match ending p with None => Done tt | Some e => Thrown e end,
     {| isUpdating := isUpdating s;
        updateProgressMessage := lastMessage p (updateProgressMessage s);
        formDocuments := formDocuments s |},
     pulls p).
Proof.
  revert s. induction p as [| e | m rest IH]; intros s.
  - destruct s; reflexivity.
  - destruct s; reflexivity.
  - simpl. unfold bind at 1. simpl. unfold bind at 1. simpl.
    rewrite IH. simpl. destruct (ending rest); reflexivity.
Qed.

(** A run with nothing to do: the early [return] of line 104. *)
Lemma onSubmit_noop (submitUpdateDocuments : Delta -> Progress)
    (initialDocuments : list InitialDocument) (data : FormValue) (s : State) :
  computeDelta (documents data) initialDocuments = emptyDelta ->
  onSubmit submitUpdateDocuments initialDocuments data s
  = (Done tt, cleared s,
     [SetUpdating true; OnUpdateStart; OnUpdateEnd JS.Undefined]
       ++ cleanup_events).
Proof.
  intros H. apply isAnyFileChanged_zero in H. unfold isAnyFileChanged in H.
  unfold onSubmit, async, try_finally, try_catch, bind. simpl.
  rewrite H. reflexivity.
Qed.

(** A run with a delta to submit: the call, the pulls, the notification
    of the end (missing when the [catch] block itself throws), and the
    [finally] block. *)
Lemma onSubmit_change (submitUpdateDocuments : Delta -> Progress)
    (initialDocuments : list InitialDocument) (data : FormValue) (s : State) :
  let delta := computeDelta (documents data) initialDocuments in
  let p := submitUpdateDocuments delta in
  delta <> emptyDelta ->
  onSubmit submitUpdateDocuments initialDocuments data s
  = (end_outcome (ending p), cleared s,
     [SetUpdating true; OnUpdateStart; SubmitUpdateDocuments delta]
       ++ pulls p ++ end_notification (ending p) ++ cleanup_events).
Proof.
  intros delta p H.
  assert (Hz : isAnyFileChanged (documents data) initialDocuments <> 0).
  { intros Hz. now apply isAnyFileChanged_zero in Hz. }
  unfold isAnyFileChanged in Hz. apply Nat.eqb_neq in Hz.
  unfold onSubmit, async, try_finally, try_catch, bind. simpl.
  rewrite Hz. simpl.
  fold (computeDelta (documents data) initialDocuments). fold delta. fold p.
  rewrite for_await_run. simpl.
  destruct (ending p) as [e |]; simpl.
  - unfold lift. destruct (errorMessage e); simpl;
      rewrite <- ?app_assoc; simpl; rewrite ?app_nil_r; reflexivity.
  - rewrite <- app_assoc. reflexivity.
Qed.

Lemma delta_empty_dec (docs : list Document)
    (initialDocuments : list InitialDocument) :
  {computeDelta docs initialDocuments = emptyDelta}
  + {computeDelta docs initialDocuments <> emptyDelta}.
Proof.
  destruct (Nat.eq_dec (isAnyFileChanged docs initialDocuments) 0) as [H | H].
  - left. now apply isAnyFileChanged_zero.
  - right. intros E. apply H. now apply isAnyFileChanged_zero.
Qed.

Lemma pulls_head (p : Progress) : exists rest, pulls p = AwaitNext :: rest.
Proof.
  destruct p; simpl; eexists; reflexivity.
Qed.

(** *** The log and the state agree *)

Lemma replay_app (s : State) (l1 l2 : list Event) :
  replay s (l1 ++ l2) = replay (replay s l1) l2.
Proof.
  unfold replay. apply fold_left_app.
Qed.

Lemma formDocuments_replay (log : list Event) (s : State) :
  Forall (fun ev => is_form_reset ev = false) log ->
  formDocuments (replay s log) = formDocuments s.
Proof.
  intros H. revert s. induction H as [| ev log Hev _ IH]; intros s.
  - reflexivity.
  - simpl. rewrite IH. destruct ev; simpl; try reflexivity. discriminate Hev.
Qed.

Lemma pulls_no_reset (p : Progress) :
  Forall (fun ev => is_form_reset ev = false) (pulls p).
Proof.
  induction p; simpl; repeat constructor; assumption.
Qed.

Lemma end_notification_no_reset (end_ : option JS.Value) :
  Forall (fun ev => is_form_reset ev = false) (end_notification end_).
Proof.
  destruct end_ as [e |]; simpl.
  - destruct (errorMessage e); repeat constructor.
  - repeat constructor.
Qed.

Lemma replay_cleanup (s : State) :
  replay s cleanup_events = cleared s.
Proof.
  reflexivity.
Qed.

(** Replaying the setter calls of a run of [onSubmit] from its initial
    state gives its final state. *)
Lemma onSubmit_replay (submitUpdateDocuments : Delta -> Progress)
    (initialDocuments : list InitialDocument) (data : FormValue) (s : State) :
  replay s (trace (onSubmit submitUpdateDocuments initialDocuments data s))
  = final (onSubmit submitUpdateDocuments initialDocuments data s).
Proof.
  destruct (delta_empty_dec (documents data) initialDocuments) as [H | H].
  - rewrite (onSubmit_noop _ _ _ _ H). reflexivity.
  - rewrite (onSubmit_change _ _ _ _ H). unfold trace, final. cbn [fst snd].
    rewrite 3 replay_app, replay_cleanup.
    unfold cleared. f_equal.
    rewrite (formDocuments_replay _ _ (end_notification_no_reset _)).
    rewrite (formDocuments_replay _ _ (pulls_no_reset _)).
    reflexivity.
Qed.

(** *** The display value of the [catch] block *)

Lemma errorMessage_fallback (e : JS.Value) :
  nullish e = false ->
  errorMessage e = JS.Normal (display_as_specified e).
Proof.
  intros H. unfold errorMessage, display_as_specified.
  destruct (JS.get_message e) as [m | x] eqn:G.
  - f_equal. unfold JS.or. destruct (JS.truthy m) eqn:T.
    + now rewrite T.
    + destruct (JS.stringify e) as [j |]; simpl; [| reflexivity].
      unfold truthy_string. now destruct (negb (j =? EmptyString)).
  - destruct e; simpl in *; discriminate.
Qed.

Lemma errorMessage_nullish (e : JS.Value) :
  nullish e = true ->
  exists x, errorMessage e = JS.Throw x.
Proof.
  intros H. destruct e; try discriminate H; eexists; reflexivity.
Qed.

(** A stream that rejects with a value other than [undefined] and [null]
    is reported once, with the display value, and [onSubmit] returns. *)
Lemma onSubmit_reports_rejection (submitUpdateDocuments : Delta -> Progress)
    (initialDocuments : list InitialDocument) (data : FormValue) (s : State)
    (e : JS.Value) :
  let delta := computeDelta (documents data) initialDocuments in
  delta <> emptyDelta ->
  ending (submitUpdateDocuments delta) = Some e ->
  nullish e = false ->
  onSubmit submitUpdateDocuments initialDocuments data s
  = (Done tt, cleared s,
     [SetUpdating true; OnUpdateStart; SubmitUpdateDocuments delta]
       ++ pulls (submitUpdateDocuments delta)
       ++ [OnUpdateEnd (display_as_specified e)] ++ cleanup_events).
Proof.
  intros delta Hd He Hn. unfold delta. rewrite (onSubmit_change _ _ _ _ Hd).
  fold delta. rewrite He. unfold end_outcome, end_notification.
  rewrite (errorMessage_fallback _ Hn). reflexivity.
Qed.

(** A stream that rejects with [undefined] or [null] is not reported:
    the [catch] block throws, and the throw leaves [onSubmit]. *)
Lemma onSubmit_nullish_rejection (submitUpdateDocuments : Delta -> Progress)
    (initialDocuments : list InitialDocument) (data : FormValue) (s : State)
    (e : JS.Value) :
  let delta := computeDelta (documents data) initialDocuments in
  delta <> emptyDelta ->
  ending (submitUpdateDocuments delta) = Some e ->
  nullish e = true ->
  exists x,
    onSubmit submitUpdateDocuments initialDocuments data s
    = (Thrown x, cleared s,
       [SetUpdating true; OnUpdateStart; SubmitUpdateDocuments delta]
         ++ pulls (submitUpdateDocuments delta) ++ cleanup_events).
Proof.
  intros delta Hd He Hn. destruct (errorMessage_nullish _ Hn) as [x Hx].
  exists x. unfold delta. rewrite (onSubmit_change _ _ _ _ Hd).
  fold delta. rewrite He. unfold end_outcome, end_notification.
  rewrite Hx. reflexivity.
Qed.

(** The serialised form of a value is never the empty string. *)
Lemma json_number_nonempty (n : Z) : JS.json_number n <> EmptyString.
Proof.
  unfold JS.json_number, NilZero.string_of_int.
  destruct (Z.to_int n) as [u | u]; [| discriminate].
  unfold NilZero.string_of_uint. destruct u; discriminate.
Qed.

Lemma stringify_nonempty (e : JS.Value) (j : string) :
  JS.stringify e = Some j -> j <> EmptyString.
Proof.
  destruct e as [| | [|] | n | s | f | nm m | props]; simpl; intros H;
    try discriminate H; injection H as <-; try discriminate.
  apply json_number_nonempty.
Qed.

(** Whenever the [catch] block reaches [onUpdateEnd], its argument is
    truthy: the parent can tell a failure from the call without message. *)
Lemma display_truthy (e : JS.Value) :
  nullish e = false -> JS.truthy (display_as_specified e) = true.
Proof.
  intros H. unfold display_as_specified.
  destruct (JS.get_message e) as [m | x] eqn:G.
  - destruct (JS.truthy m) eqn:T; [exact T |].
    destruct (JS.stringify e) as [j |] eqn:S.
    + apply stringify_nonempty in S. apply truthy_string_true in S.
      rewrite S. simpl. exact S.
    + destruct e as [| | [|] | n | s | f | nm msg | props]; simpl in *;
        try discriminate; reflexivity.
  - destruct e; simpl in *; discriminate.
Qed.

(** *** The scenarios of the specification *)

Example scenario_remove_and_add :
  computeDelta edited two_initial
  = {| added := [c_pdf]; removed := ["2"] |}.
Proof. reflexivity. Qed.

Example scenario_nothing_persisted :
  computeDelta [ {| id := None; name := Some "c.pdf"; file := Some c_pdf |} ] []
  = {| added := [c_pdf]; removed := [] |}.
Proof. reflexivity. Qed.

Example scenario_two_messages :
  onSubmit two_messages two_initial {| documents := edited |} idle
  = (Done tt, idle,
     [SetUpdating true; OnUpdateStart;
      SubmitUpdateDocuments {| added := [c_pdf]; removed := ["2"] |};
      AwaitNext; SetUpdateProgressMessage (Some "uploading c.pdf");
      AwaitNext; SetUpdateProgressMessage (Some "done");
      AwaitNext; OnUpdateEnd JS.Undefined;
      SetUpdating false; SetUpdateProgressMessage None]).
Proof. reflexivity. Qed.

Example scenario_rejection_without_message :
  filter is_end_notification
    (trace (onSubmit (rejects_with status_500) two_initial
              {| documents := edited |} idle))
  = [OnUpdateEnd (JS.of_option_string (JS.stringify status_500))] /\
  final (onSubmit (rejects_with status_500) two_initial
           {| documents := edited |} idle) = idle.
Proof. split; reflexivity. Qed.

Example scenario_rejection_with_message :
  filter is_end_notification
    (trace (onSubmit (rejects_with (JS.Error "Error" "upload failed"))
              two_initial {| documents := edited |} idle))
  = [OnUpdateEnd (JS.Str "upload failed")].
Proof. reflexivity. Qed.

Example scenario_rejection_with_function :
  filter is_end_notification
    (trace (onSubmit (rejects_with (JS.Fun "abort"))
              two_initial {| documents := edited |} idle))
  = [OnUpdateEnd (JS.Fun "abort")].
Proof. reflexivity. Qed.

(** ** The submission flow: claims C2, C3 and C8 *)

Lemma retained_nothing_removed (docs : list Document)
    (initialDocuments : list InitialDocument) :
  retains_every_id docs initialDocuments ->
  removedDocumentIds docs initialDocuments = [].
Proof.
  intros H.
  destruct (removedDocumentIds docs initialDocuments) as [| x l] eqn:E;
    [reflexivity |].
  assert (Hx : In x (removedDocumentIds docs initialDocuments))
    by (rewrite E; now left).
  apply In_removedDocumentIds in Hx. destruct Hx as [Hin [_ Hnot]].
  exfalso. apply Hnot. now apply H.
Qed.

Lemma no_file_nothing_added (docs : list Document) :
  Forall (fun d => file d = None) docs ->
  addedFiles docs = [].
Proof.
  intros H. rewrite addedFiles_payloads.
  induction H as [| d rest Hd _ IH]; simpl; [reflexivity |].
  now rewrite Hd.
Qed.

(** C2: when the edit state retains every original id and holds no
    document with a file, the delta is empty, [submitUpdateDocuments] is
    not called, and [onUpdateEnd()] is called right after
    [onUpdateStart()], before anything is awaited; [onSubmit] returns. *)
Theorem C2_noop_is_skipped (submitUpdateDocuments : Delta -> Progress)
    (initialDocuments : list InitialDocument) (data : FormValue) (s : State)
    (Hretains : retains_every_id (documents data) initialDocuments)
    (Hnofile : Forall (fun d => file d = None) (documents data)) :
  computeDelta (documents data) initialDocuments = emptyDelta /\
  filter is_submission
    (trace (onSubmit submitUpdateDocuments initialDocuments data s)) = [] /\
  trace (onSubmit submitUpdateDocuments initialDocuments data s)
    = [SetUpdating true; OnUpdateStart; OnUpdateEnd JS.Undefined]
        ++ cleanup_events /\
  outcome (onSubmit submitUpdateDocuments initialDocuments data s) = Done tt.
Proof.
  assert (H : computeDelta (documents data) initialDocuments = emptyDelta).
  { unfold computeDelta, emptyDelta.
    rewrite (no_file_nothing_added _ Hnofile).
    now rewrite (retained_nothing_removed _ _ Hretains). }
  rewrite (onSubmit_noop _ _ _ _ H). repeat split; try reflexivity. exact H.
Qed.

Lemma C2_noop_is_skipped_witness :
  computeDelta untouched two_initial = emptyDelta /\
  filter is_submission
    (trace (onSubmit two_messages two_initial
              {| documents := untouched |} idle)) = [] /\
  trace (onSubmit two_messages two_initial {| documents := untouched |} idle)
    = [SetUpdating true; OnUpdateStart; OnUpdateEnd JS.Undefined]
        ++ cleanup_events /\
  outcome (onSubmit two_messages two_initial
             {| documents := untouched |} idle) = Done tt.
Proof.
  apply (C2_noop_is_skipped two_messages two_initial
           {| documents := untouched |} idle).
  - intros x Hx. simpl in *. exact Hx.
  - simpl. repeat constructor.
Defined.

(** C3 at a stream that shows one message and then rejects with
    [undefined]: reading [.message] in the [catch] block throws a
    TypeError, so [onUpdateEnd] is not called at all, with or without a
    message, and the TypeError leaves [onSubmit]; the [finally] block
    has run. *)
Theorem C3_undefined_rejection_is_not_reported :
  onSubmit (rejects_with JS.Undefined) two_initial
           {| documents := edited |} idle
  = (Thrown (JS.TypeError
               "Cannot read properties of undefined (reading 'message')"),
     idle,
     [SetUpdating true; OnUpdateStart;
      SubmitUpdateDocuments {| added := [c_pdf]; removed := ["2"] |};
      AwaitNext; SetUpdateProgressMessage (Some "uploading c.pdf");
      AwaitNext; SetUpdating false; SetUpdateProgressMessage None]) /\
  filter is_end_notification
    (trace (onSubmit (rejects_with JS.Undefined) two_initial
                     {| documents := edited |} idle)) = [].
Proof.
  split; reflexivity.
Qed.

(** C8: every run of [onSubmit] starts with [setUpdating(true)] and
    [onUpdateStart()], whatever the delta; when the delta is empty the
    next call is [onUpdateEnd()], so that the parent sees
    [onUpdateStart()] and then [onUpdateEnd()] without a message. *)
Theorem C8_start_precedes_delta (submitUpdateDocuments : Delta -> Progress)
    (initialDocuments : list InitialDocument) (data : FormValue) (s : State) :
  (exists rest,
     trace (onSubmit submitUpdateDocuments initialDocuments data s)
     = SetUpdating true :: OnUpdateStart :: rest) /\
  (computeDelta (documents data) initialDocuments = emptyDelta ->
   trace (onSubmit submitUpdateDocuments initialDocuments data s)
     = [SetUpdating true; OnUpdateStart; OnUpdateEnd JS.Undefined]
         ++ cleanup_events /\
   filter is_boundary
     (trace (onSubmit submitUpdateDocuments initialDocuments data s))
     = [OnUpdateStart; OnUpdateEnd JS.Undefined]).
Proof.
  split.
  - destruct (delta_empty_dec (documents data) initialDocuments) as [H | H].
    + rewrite (onSubmit_noop _ _ _ _ H). eexists. reflexivity.
    + rewrite (onSubmit_change _ _ _ _ H). eexists. reflexivity.
  - intros H. rewrite (onSubmit_noop _ _ _ _ H). split; reflexivity.
Qed.

Lemma C8_start_precedes_delta_witness :
  trace (onSubmit two_messages two_initial {| documents := untouched |} idle)
    = [SetUpdating true; OnUpdateStart; OnUpdateEnd JS.Undefined]
        ++ cleanup_events /\
  filter is_boundary
    (trace (onSubmit two_messages two_initial
              {| documents := untouched |} idle))
    = [OnUpdateStart; OnUpdateEnd JS.Undefined].
Proof.
  apply (C8_start_precedes_delta two_messages two_initial
           {| documents := untouched |} idle).
  reflexivity.
Defined.

(** ** The effect on [initialDocuments]: claim C5 *)

(** C5, as stated, fails: the effect does not touch
    [updateProgressMessage].  Run while a submission shows a progress
    text, it leaves that text in the state, and the text is on display
    again as soon as [setUpdating(true)] is called. *)
Lemma C5_counterexample :
  updateProgressMessage (final (onInitialDocumentsChange two_initial uploading))
    = Some "uploading c.pdf" /\
  progressText
    (replay (final (onInitialDocumentsChange two_initial uploading))
            [SetUpdating true])
    = Some "uploading c.pdf".
Proof.
  split; reflexivity.
Qed.

(** C5, amended: when [initialDocuments] changes, the busy flag is reset
    to false, the documents of the form are reset to the new
    [initialDocuments], and the progress text is no longer rendered,
    because it is rendered only while busy; the stored
    [updateProgressMessage] is left as it was. *)
Theorem C5_reset_on_new_initial (initialDocuments : list InitialDocument)
    (s : State) :
  isUpdating (final (onInitialDocumentsChange initialDocuments s)) = false /\
  formDocuments (final (onInitialDocumentsChange initialDocuments s))
    = map of_initial initialDocuments /\
  progressText (final (onInitialDocumentsChange initialDocuments s)) = None /\
  saveDisabled (final (onInitialDocumentsChange initialDocuments s)) = false /\
  updateProgressMessage (final (onInitialDocumentsChange initialDocuments s))
    = updateProgressMessage s /\
  trace (onInitialDocumentsChange initialDocuments s)
    = [SetUpdating false; FormReset initialDocuments].
Proof.
  repeat split.
Qed.

(** ** Editing the form value *)

Lemma filePayloads_app (l1 l2 : list Document) :
  filePayloads (l1 ++ l2) = filePayloads l1 ++ filePayloads l2.
Proof.
  induction l1 as [| d l1 IH]; simpl; [reflexivity |].
  destruct (file d); simpl; now rewrite IH.
Qed.

Lemma editIds_app (l1 l2 : list Document) :
  editIds (l1 ++ l2) = editIds l1 ++ editIds l2.
Proof.
  induction l1 as [| d l1 IH]; simpl; [reflexivity |].
  destruct (id d); simpl; now rewrite IH.
Qed.

Lemma filePayloads_of_file (fs : list File) :
  filePayloads (map of_file fs) = fs.
Proof.
  induction fs as [| f fs IH]; simpl; [reflexivity |]. now rewrite IH.
Qed.

Lemma editIds_of_file (fs : list File) : editIds (map of_file fs) = [].
Proof.
  induction fs as [| f fs IH]; simpl; [reflexivity | exact IH].
Qed.

Lemma editIds_of_initial (initialDocuments : list InitialDocument) :
  editIds (map of_initial initialDocuments) = initialIds initialDocuments.
Proof.
  induction initialDocuments as [| d l IH]; simpl; [reflexivity |].
  now rewrite IH.
Qed.

Lemma filePayloads_of_initial (initialDocuments : list InitialDocument) :
  filePayloads (map of_initial initialDocuments) = [].
Proof.
  induction initialDocuments as [| d l IH]; simpl; [reflexivity | exact IH].
Qed.

(** [removedDocumentIds] looks at the edit state through the ids its
    documents keep, and at nothing else. *)
Lemma removedDocumentIds_ext (docs docs' : list Document)
    (initialDocuments : list InitialDocument) :
  remainedDocumentIds docs = remainedDocumentIds docs' ->
  removedDocumentIds docs initialDocuments
  = removedDocumentIds docs' initialDocuments.
Proof.
  intros H. unfold removedDocumentIds, removedDocuments. now rewrite H.
Qed.

Lemma remainedDocumentIds_app (l1 l2 : list Document) :
  remainedDocumentIds (l1 ++ l2)
  = remainedDocumentIds l1 ++ remainedDocumentIds l2.
Proof.
  rewrite !remainedDocumentIds_editIds, editIds_app. apply filter_app.
Qed.

(** *** Deleting a row *)

Lemma filter_index_shift {A} (index k : nat) (l : list A) :
  filter_index (fun _ i => negb (Nat.eqb i (S index))) (S k) l
  = filter_index (fun _ i => negb (Nat.eqb i index)) k l.
Proof.
  revert k. induction l as [| x l IH]; intros k; simpl; [reflexivity |].
  now rewrite IH.
Qed.

Lemma filter_index_past {A} (index k : nat) (l : list A) :
  index < k ->
  filter_index (fun _ i => negb (Nat.eqb i index)) k l = l.
Proof.
  revert k. induction l as [| x l IH]; intros k Hk; simpl; [reflexivity |].
  destruct (Nat.eqb_spec k index) as [E | _]; [lia |].
  simpl. f_equal. apply IH. lia.
Qed.

Lemma filter_index_remove {A} (index : nat) (l : list A) :
  filter_index (fun _ i => negb (Nat.eqb i index)) 0 l
  = firstn index l ++ skipn (S index) l.
Proof.
  revert index. induction l as [| x l IH]; intros index.
  - now destruct index.
  - destruct index as [| index]; simpl.
    + apply filter_index_past. lia.
    + f_equal. rewrite filter_index_shift. apply IH.
Qed.

Lemma remove_middle {A} (l1 l2 : list A) (x : A) :
  firstn (List.length l1) (l1 ++ x :: l2)
    ++ skipn (S (List.length l1)) (l1 ++ x :: l2)
  = l1 ++ l2.
Proof.
  induction l1 as [| y l1 IH]; simpl; [reflexivity |]. f_equal. exact IH.
Qed.

(** Dropping files appends one document for each file, in the order of
    the drop: [added] grows by exactly these files, at its end, and
    [removedIds] is the same as before, for every InitialSet.  A missing
    value or a missing file list counts as an empty one. *)
Theorem drop_appends_to_added (value : option (list Document))
    (newFiles : option (list File))
    (initialDocuments : list InitialDocument) :
  addedFiles (onFileDropped value newFiles)
    = addedFiles (or_empty value) ++ or_empty newFiles /\
  removedDocumentIds (onFileDropped value newFiles) initialDocuments
    = removedDocumentIds (or_empty value) initialDocuments /\
  List.length (onFileDropped value newFiles)
    = List.length (or_empty value) + List.length (or_empty newFiles).
Proof.
  unfold onFileDropped. split; [| split].
  - rewrite !addedFiles_payloads, filePayloads_app.
    now rewrite filePayloads_of_file.
  - apply removedDocumentIds_ext.
    rewrite remainedDocumentIds_app.
    rewrite (remainedDocumentIds_editIds (map of_file _)), editIds_of_file.
    apply app_nil_r.
  - now rewrite length_app, length_map.
Qed.

(** The delete button of row [index] removes that row and no other: the
    rows before it and the rows after it stay, in their order.  The
    value is one row shorter when the row exists, and unchanged when
    [index] is past the last row. *)
Theorem remove_click_drops_one_row (l : list Document) (index : nat) :
  onRemoveClick (Some l) index = firstn index l ++ skipn (S index) l /\
  List.length (onRemoveClick (Some l) index)
    = List.length l - (if Nat.ltb index (List.length l) then 1 else 0) /\
  (forall k, onRemoveClick (Some l) (List.length l + k) = l).
Proof.
  unfold onRemoveClick. simpl or_empty. split; [| split].
  - apply filter_index_remove.
  - rewrite filter_index_remove, length_app, length_firstn, length_skipn.
    destruct (Nat.ltb_spec index (List.length l)); lia.
  - intros k. rewrite filter_index_remove.
    rewrite firstn_all2 by lia. rewrite skipn_all2 by lia. apply app_nil_r.
Qed.

(** Deleting the row of a file that was just dropped is the same as not
    having dropped that file: the [k]-th of the new rows goes, the
    documents that were there before and the other new rows stay. *)
Theorem remove_dropped_row (value : option (list Document))
    (newFiles : list File) (k : nat) :
  onRemoveClick (Some (onFileDropped value (Some newFiles)))
                (List.length (or_empty value) + k)
  = onFileDropped value (Some (firstn k newFiles ++ skipn (S k) newFiles)).
Proof.
  unfold onRemoveClick, onFileDropped. simpl or_empty.
  rewrite filter_index_remove, firstn_app_2, skipn_app.
  rewrite (skipn_all2 (or_empty value)) by lia.
  replace (S (List.length (or_empty value) + k)
           - List.length (or_empty value)) with (S k) by lia.
  rewrite firstn_map, skipn_map, map_app. simpl. now rewrite app_assoc.
Qed.

Lemma remove_click_at (l1 l2 : list Document) (d : Document) :
  onRemoveClick (Some (l1 ++ d :: l2)) (List.length l1) = l1 ++ l2.
Proof.
  unfold onRemoveClick. simpl or_empty.
  rewrite filter_index_remove. apply remove_middle.
Qed.

(** Deleting the row of a persisted document reports it as removed, and
    changes nothing else in [removedIds]: when no two rows carry the
    same id, and the deleted row carries a non-empty id [x] of
    InitialSet, then [x] is in [removedIds] afterwards, and every other
    id is in [removedIds] afterwards exactly when it was before. *)
Theorem remove_click_on_persisted_row (docs : list Document) (index : nat)
    (d : Document) (x : string) (initialDocuments : list InitialDocument)
    (Hrow : nth_error docs index = Some d)
    (Hid : id d = Some x)
    (Hnonempty : x <> EmptyString)
    (Hinitial : In x (initialIds initialDocuments))
    (Hunique : NoDup (editIds docs)) :
  In x (removedDocumentIds (onRemoveClick (Some docs) index)
                           initialDocuments) /\
  (forall y, y <> x ->
     (In y (removedDocumentIds (onRemoveClick (Some docs) index)
                               initialDocuments) <->
      In y (removedDocumentIds docs initialDocuments))).
Proof.
  destruct (nth_error_split _ _ Hrow) as [l1 [l2 [-> <-]]].
  rewrite remove_click_at.
  rewrite editIds_app in Hunique. simpl in Hunique. rewrite Hid in Hunique.
  apply NoDup_remove_2 in Hunique.
  split.
  - apply In_removedDocumentIds. rewrite editIds_app. tauto.
  - intros y Hy. rewrite !In_removedDocumentIds, !editIds_app.
    simpl. rewrite Hid. rewrite !in_app_iff. simpl.
    split; intros [H1 [H2 H3]]; repeat split; try assumption.
    + intros [H | [H | H]]; [tauto | congruence | tauto].
    + tauto.
Qed.

Lemma remove_click_on_persisted_row_witness :
  In "1" (removedDocumentIds (onRemoveClick (Some edited) 0) two_initial) /\
  (forall y, y <> "1" ->
     (In y (removedDocumentIds (onRemoveClick (Some edited) 0) two_initial)
      <-> In y (removedDocumentIds edited two_initial))).
Proof.
  apply (remove_click_on_persisted_row edited 0
           {| id := Some "1"; name := Some "a.pdf"; file := None |}
           "1" two_initial).
  - reflexivity.
  - reflexivity.
  - discriminate.
  - now left.
  - simpl. constructor; [intros [] | constructor].
Defined.

(** Deleting a row touches only the side of the delta the row was on:
    when the deleted row has no id, or an empty one, [removedIds] is
    unchanged for every InitialSet; when it has no file, [added] is
    unchanged. *)
Theorem remove_click_other_side (docs : list Document) (index : nat)
    (d : Document) (Hrow : nth_error docs index = Some d) :
  (truthy_id (id d) = false ->
   forall initialDocuments,
     removedDocumentIds (onRemoveClick (Some docs) index) initialDocuments
     = removedDocumentIds docs initialDocuments) /\
  (file d = None ->
   addedFiles (onRemoveClick (Some docs) index) = addedFiles docs).
Proof.
  destruct (nth_error_split _ _ Hrow) as [l1 [l2 [-> <-]]].
  rewrite remove_click_at. split.
  - intros Hfalsy initialDocuments. apply removedDocumentIds_ext.
    rewrite !remainedDocumentIds_app. f_equal.
    change (d :: l2) with ([d] ++ l2). rewrite remainedDocumentIds_app.
    unfold remainedDocumentIds at 2, remainedDocuments. simpl.
    now rewrite Hfalsy.
  - intros Hfile. rewrite !addedFiles_payloads, !filePayloads_app.
    simpl. now rewrite Hfile.
Qed.

Lemma remove_click_other_side_witness :
  removedDocumentIds (onRemoveClick (Some edited) 1) two_initial
  = removedDocumentIds edited two_initial.
Proof.
  refine (proj1 (remove_click_other_side edited 1
                   {| id := None; name := Some "c.pdf"; file := Some c_pdf |}
                   _) _ two_initial).
  - reflexivity.
  - reflexivity.
Defined.

(** A form that was not edited submits nothing: for every InitialSet the
    default value of the form has the empty delta, and so has the value
    the form is reset to when [initialDocuments] changes; [onSubmit]
    then calls [onUpdateStart()] and [onUpdateEnd()] and never the
    update service. *)
Theorem untouched_form_is_noop (submitUpdateDocuments : Delta -> Progress)
    (initialDocuments : list InitialDocument) (s s' : State) :
  computeDelta (documents (defaultValues initialDocuments)) initialDocuments
    = emptyDelta /\
  formDocuments (final (onInitialDocumentsChange initialDocuments s'))
    = documents (defaultValues initialDocuments) /\
  trace (onSubmit submitUpdateDocuments initialDocuments
           (defaultValues initialDocuments) s)
    = [SetUpdating true; OnUpdateStart; OnUpdateEnd JS.Undefined]
        ++ cleanup_events.
Proof.
  assert (H : computeDelta (documents (defaultValues initialDocuments))
                           initialDocuments = emptyDelta).
  { unfold computeDelta, emptyDelta, defaultValues. simpl. f_equal.
    - rewrite addedFiles_payloads. apply filePayloads_of_initial.
    - apply retained_nothing_removed. intros x Hx.
      now rewrite editIds_of_initial. }
  split; [exact H |]. split; [reflexivity |].
  now rewrite (onSubmit_noop _ _ _ _ H).
Qed.

(** *** The schema *)

Lemma forallb_filter_index {A} (q : A -> bool) (p : A -> nat -> bool)
    (k : nat) (l : list A) :
  forallb q l = true -> forallb q (filter_index p k l) = true.
Proof.
  revert k. induction l as [| x l IH]; intros k H; simpl; [reflexivity |].
  simpl in H. apply andb_true_iff in H. destruct H as [Hx Hl].
  destruct (p x k); simpl; [rewrite Hx |]; now apply IH.
Qed.

(** Every value the form can reach passes [formSchema]: the default
    value does, and both handlers keep a value that passes passing,
    whatever files are dropped and whatever row is deleted. *)
Theorem form_value_passes_schema :
  (forall initialDocuments,
     formSchema (defaultValues initialDocuments) = true) /\
  (forall value newFiles,
     formSchema {| documents := or_empty value |} = true ->
     formSchema {| documents := onFileDropped value newFiles |} = true) /\
  (forall value index,
     formSchema {| documents := or_empty value |} = true ->
     formSchema {| documents := onRemoveClick value index |} = true).
Proof.
  unfold formSchema. simpl. split; [| split].
  - intros l. induction l as [| d l IH]; simpl; [reflexivity | exact IH].
  - intros value newFiles H. unfold onFileDropped.
    rewrite forallb_app, H. simpl.
    induction (or_empty newFiles) as [| f fs IH]; simpl;
      [reflexivity | exact IH].
  - intros value index H. now apply forallb_filter_index.
Qed.

Lemma form_value_passes_schema_witness :
  formSchema {| documents := onFileDropped (Some untouched) (Some [c_pdf]) |}
  = true.
Proof.
  refine (proj1 (proj2 form_value_passes_schema)
            (Some untouched) (Some [c_pdf]) _).
  reflexivity.
Defined.

(** ** The rendered rows *)

Lemma documentRows_adds (f : Document -> nat -> Row) (k : nat)
    (l : list Document) :
  (forall d i, is_add (f d i) = has_file d) ->
  List.length (filter is_add (map_index f k l))
  = List.length (filter has_file l).
Proof.
  intros Hf. revert k. induction l as [| d l IH]; intros k; simpl;
    [reflexivity |].
  rewrite Hf. destruct (has_file d); simpl; now rewrite IH.
Qed.

Lemma documentRows_badges (f : Document -> nat -> Row) (k : nat)
    (l : list Document) :
  (forall d i, has_badge (f d i) = has_file d) ->
  existsb has_badge (map_index f k l) = existsb has_file l.
Proof.
  intros Hf. revert k. induction l as [| d l IH]; intros k; simpl;
    [reflexivity |].
  now rewrite Hf, IH.
Qed.

Lemma existsb_false_filter {A} (p : A -> bool) (l : list A) :
  existsb p l = false <-> filter p l = [].
Proof.
  induction l as [| x l IH]; simpl; [tauto |].
  destruct (p x); simpl; [split; discriminate | exact IH].
Qed.

Lemma map_index_keys (l : list Document) (k : nat) (g : Document -> option Badge)
    (h : Document -> option string) :
  map row_key
    (map_index (fun d i => {| row_key := KeyIndex i; row_badge := g d;
                              row_name := h d |}) k l)
  = map KeyIndex (seq k (List.length l)).
Proof.
  revert k. induction l as [| d l IH]; intros k; simpl; [reflexivity |].
  now rewrite IH.
Qed.

(** The badges on the screen tell what saving will do.  There are as
    many ADD rows as files in [added]; the REMOVE rows are keyed by the
    ids of [removedIds], in the same order; and no row carries a badge
    exactly when the delta is empty, that is when saving calls no update
    service. *)
Theorem badges_announce_the_delta (value : option (list Document))
    (initialDocuments : list InitialDocument) :
  List.length (filter is_add (renderedRows value initialDocuments))
    = List.length (added (computeDelta (or_empty value) initialDocuments)) /\
  map row_key (removedRows value initialDocuments)
    = map KeyId (removed (computeDelta (or_empty value) initialDocuments)) /\
  (existsb has_badge (renderedRows value initialDocuments) = false <->
   computeDelta (or_empty value) initialDocuments = emptyDelta).
Proof.
  unfold renderedRows, documentRows, removedRows. simpl. split; [| split].
  - rewrite filter_app, length_app.
    rewrite documentRows_adds
      by (intros d i; unfold is_add; simpl; now destruct (has_file d)).
    rewrite addedFiles_length. unfold addedDocuments.
    remember (removedDocuments (or_empty value) initialDocuments) as r.
    clear Heqr. induction r as [| x r IH]; simpl; [lia | exact IH].
  - unfold removedDocumentIds. rewrite !map_map. reflexivity.
  - rewrite existsb_app, orb_false_iff.
    rewrite documentRows_badges
      by (intros d i; unfold has_badge; simpl; now destruct (has_file d)).
    rewrite existsb_false_filter.
    rewrite <- isAnyFileChanged_zero. unfold isAnyFileChanged.
    rewrite or_length_zero, addedFiles_length. unfold addedDocuments.
    unfold removedDocumentIds. rewrite length_map.
    rewrite !length_zero_iff_nil.
    destruct (removedDocuments (or_empty value) initialDocuments); simpl.
    + tauto.
    + split; intros [_ H]; discriminate H.
Qed.

(** The React keys are distinct within each list of rows: always for
    the rows of the form value, which are keyed by index, and for the
    REMOVE rows when InitialSet lists no id twice. *)
Theorem row_keys_are_distinct (value : option (list Document))
    (initialDocuments : list InitialDocument)
    (Hdistinct : NoDup (initialIds initialDocuments)) :
  NoDup (map row_key (documentRows value)) /\
  NoDup (map row_key (removedRows value initialDocuments)).
Proof.
  split.
  - unfold documentRows. rewrite map_index_keys.
    apply Injective_map_NoDup; [| apply seq_NoDup].
    intros a b H. now injection H.
  - unfold removedRows. rewrite map_map. simpl.
    rewrite <- (map_map initial_id KeyId).
    apply Injective_map_NoDup; [intros a b H; now injection H |].
    fold (removedDocumentIds (or_empty value) initialDocuments).
    rewrite removedDocumentIds_filter. now apply NoDup_filter.
Qed.

Lemma row_keys_are_distinct_witness :
  NoDup (map row_key (documentRows (Some edited))) /\
  NoDup (map row_key (removedRows (Some edited) two_initial)).
Proof.
  apply (row_keys_are_distinct (Some edited) two_initial).
  simpl. constructor.
  - intros [H | []]. discriminate H.
  - constructor; [intros [] | constructor].
Defined.

(** ** More on the runs of [onSubmit] *)

Lemma pulls_progress (p : Progress) :
  filter is_progress (pulls p)
  = map (fun m => SetUpdateProgressMessage (Some m)) (messages p).
Proof.
  induction p as [| e | m rest IH]; simpl; try reflexivity. now rewrite IH.
Qed.

Lemma pulls_count (p : Progress) :
  List.length (filter is_pull (pulls p)) = S (List.length (messages p)).
Proof.
  induction p as [| e | m rest IH]; simpl; try reflexivity. now rewrite IH.
Qed.

Lemma end_notification_filter (q : Event -> bool) (end_ : option JS.Value) :
  (forall v, q (OnUpdateEnd v) = false) ->
  filter q (end_notification end_) = [].
Proof.
  intros Hq. destruct end_ as [e |]; simpl.
  - destruct (errorMessage e); simpl; [now rewrite Hq | reflexivity].
  - now rewrite Hq.
Qed.

(** Every message of the stream is shown, once, in the order the stream
    yields it, and the text is cleared at the end; the stream is pulled
    once more than it has messages, and not again after it completed or
    rejected. *)
Theorem messages_shown_in_order (submitUpdateDocuments : Delta -> Progress)
    (initialDocuments : list InitialDocument) (data : FormValue) (s : State)
    (Hchange : computeDelta (documents data) initialDocuments <> emptyDelta) :
  let p := submitUpdateDocuments
             (computeDelta (documents data) initialDocuments) in
  filter is_progress
    (trace (onSubmit submitUpdateDocuments initialDocuments data s))
    = map (fun m => SetUpdateProgressMessage (Some m)) (messages p)
        ++ [SetUpdateProgressMessage None] /\
  List.length
    (filter is_pull
       (trace (onSubmit submitUpdateDocuments initialDocuments data s)))
    = S (List.length (messages p)).
Proof.
  intros p. rewrite (onSubmit_change _ _ _ _ Hchange).
  unfold trace. cbn [snd]. fold p.
  split.
  - rewrite !filter_app, pulls_progress.
    rewrite end_notification_filter by reflexivity. reflexivity.
  - rewrite !filter_app, !length_app, pulls_count.
    rewrite end_notification_filter by reflexivity. simpl. lia.
Qed.

Lemma messages_shown_in_order_witness :
  filter is_progress
    (trace (onSubmit two_messages two_initial {| documents := edited |} idle))
    = map (fun m => SetUpdateProgressMessage (Some m))
          (messages (two_messages (computeDelta edited two_initial)))
        ++ [SetUpdateProgressMessage None] /\
  List.length
    (filter is_pull
       (trace (onSubmit two_messages two_initial
                 {| documents := edited |} idle)))
    = S (List.length
           (messages (two_messages (computeDelta edited two_initial)))).
Proof.
  apply (messages_shown_in_order two_messages two_initial
           {| documents := edited |} idle).
  simpl. discriminate.
Defined.

Lemma pulls_filter (q : Event -> bool) (p : Progress) :
  q AwaitNext = false ->
  (forall m, q (SetUpdateProgressMessage m) = false) ->
  filter q (pulls p) = [].
Proof.
  intros Ha Hm. induction p as [| e | m rest IH]; simpl;
    rewrite ?Ha, ?Hm; try reflexivity. exact IH.
Qed.

(** A rejection with [undefined] or [null] is not reported, whatever the
    stream showed before: [onUpdateEnd] is not called, [onSubmit] ends by
    throwing, and the [finally] block has still cleared the state. *)
Theorem nullish_rejection_escapes (submitUpdateDocuments : Delta -> Progress)
    (initialDocuments : list InitialDocument) (data : FormValue) (s : State)
    (e : JS.Value)
    (Hchange : computeDelta (documents data) initialDocuments <> emptyDelta)
    (Hrejects :
       ending (submitUpdateDocuments
                 (computeDelta (documents data) initialDocuments)) = Some e)
    (Hvalue : nullish e = true) :
  filter is_end_notification
    (trace (onSubmit submitUpdateDocuments initialDocuments data s)) = [] /\
  (exists x,
     outcome (onSubmit submitUpdateDocuments initialDocuments data s)
     = Thrown x) /\
  final (onSubmit submitUpdateDocuments initialDocuments data s) = cleared s.
Proof.
  destruct (onSubmit_nullish_rejection _ _ _ s _ Hchange Hrejects Hvalue)
    as [x Hx].
  rewrite Hx. unfold trace, outcome, final. cbn [fst snd].
  rewrite !filter_app. rewrite pulls_filter by reflexivity.
  repeat split. now exists x.
Qed.

Lemma nullish_rejection_escapes_witness :
  filter is_end_notification
    (trace (onSubmit (rejects_with JS.Null) two_initial
              {| documents := edited |} idle)) = [] /\
  (exists x,
     outcome (onSubmit (rejects_with JS.Null) two_initial
                {| documents := edited |} idle) = Thrown x) /\
  final (onSubmit (rejects_with JS.Null) two_initial
           {| documents := edited |} idle) = cleared idle.
Proof.
  apply (nullish_rejection_escapes (rejects_with JS.Null) two_initial
           {| documents := edited |} idle JS.Null).
  - simpl. discriminate.
  - reflexivity.
  - reflexivity.
Defined.

(** [onSubmit] has no guard of its own: it never reads the state.  Its
    log and its outcome are the same from every state, a busy one
    included, and it leaves the documents of the form as they were and
    never resets the form. *)
Theorem no_internal_guard (submitUpdateDocuments : Delta -> Progress)
    (initialDocuments : list InitialDocument) (data : FormValue)
    (s s' : State) :
  trace (onSubmit submitUpdateDocuments initialDocuments data s)
    = trace (onSubmit submitUpdateDocuments initialDocuments data s') /\
  outcome (onSubmit submitUpdateDocuments initialDocuments data s)
    = outcome (onSubmit submitUpdateDocuments initialDocuments data s') /\
  formDocuments (final (onSubmit submitUpdateDocuments initialDocuments data s))
    = formDocuments s /\
  filter is_form_reset
    (trace (onSubmit submitUpdateDocuments initialDocuments data s)) = [].
Proof.
  destruct (delta_empty_dec (documents data) initialDocuments) as [H | H].
  - rewrite !(onSubmit_noop _ _ _ _ H). repeat split.
  - rewrite !(onSubmit_change _ _ _ _ H). unfold trace. cbn [snd].
    repeat split.
    rewrite !filter_app. rewrite pulls_filter by reflexivity.
    rewrite end_notification_filter by reflexivity. reflexivity.
Qed.

(** ** Duplicated ids *)

Lemma count_occ_filter (p : string -> bool) (l : list string) (x : string) :
  count_occ string_dec (filter p l) x
  = if p x then count_occ string_dec l x else 0.
Proof.
  induction l as [| y l IH]; simpl; [now destruct (p x) |].
  destruct (string_dec y x) as [-> | Hne].
  - destruct (p x) eqn:E; simpl.
    + destruct (string_dec x x); [| congruence]. now rewrite IH.
    + exact IH.
  - destruct (p y); simpl; [destruct (string_dec y x); [congruence |] |];
      exact IH.
Qed.

(** [removedIds] keeps the multiplicity of InitialSet: a non-empty id
    that is missing from the edit state is reported as many times as
    InitialSet lists it, and every other id not at all. *)
Theorem removed_ids_multiplicity (docs : list Document)
    (initialDocuments : list InitialDocument) (x : string) :
  count_occ string_dec (removedDocumentIds docs initialDocuments) x
  = if truthy_string x && negb (includes (editIds docs) x)
    then count_occ string_dec (initialIds initialDocuments) x
    else 0.
Proof.
  rewrite removedDocumentIds_filter. unfold nonEmptyMissingIds.
  apply (count_occ_filter
           (fun x => truthy_string x && negb (includes (editIds docs) x))).
Qed.

(** ** The theme toggle *)

Module ThemeToggleFacts.

Import ThemeToggle.

Lemma toggled_dark (theme : Theme) :
  toggled theme = "dark" <-> theme = Some "light".
Proof.
  unfold toggled. destruct theme as [t |]; [| split; discriminate].
  destruct (String.eqb_spec t "light") as [-> | Hne].
  - tauto.
  - split; [discriminate |]. intros H. injection H as ->. congruence.
Qed.

(** A click always lands on light or dark, and on dark only from light:
    every other theme, a system theme or an unknown one included, goes to
    light.  After the first click the toggle alternates: two more clicks
    give the same theme again. *)
Theorem click_alternates (theme : Theme) :
  (onClick theme = Some "dark" <-> theme = Some "light") /\
  (onClick theme = Some "light" <-> theme <> Some "light") /\
  onClick (onClick (onClick theme)) = onClick theme.
Proof.
  unfold onClick. split; [| split].
  - rewrite <- toggled_dark. split; [intros H; now injection H | now intros ->].
  - unfold toggled. destruct theme as [t |]; [| split; congruence].
    destruct (String.eqb_spec t "light") as [-> | Hne].
    + split; [discriminate | congruence].
    + split; [congruence | reflexivity].
  - assert (H : toggled theme = "light" \/ toggled theme = "dark").
    { unfold toggled. destruct theme as [t |]; [| now left].
      destruct (t =? "light"); [now right | now left]. }
    destruct H as [H | H]; rewrite H; reflexivity.
Qed.

(** The button shows no icon exactly when the theme is unknown or empty,
    the moon exactly for the dark theme and the sun for every other
    one; after a click there is always an icon, the moon when the theme
    was light and the sun otherwise. *)
Theorem icon_follows_theme (theme : Theme) :
  (icon theme = None <-> theme = None \/ theme = Some EmptyString) /\
  (icon theme = Some MoonIcon <-> theme = Some "dark") /\
  icon (onClick theme)
    = Some (match theme with
            | Some t => if t =? "light" then MoonIcon else SunIcon
            | None => SunIcon
            end).
Proof.
  split; [| split].
  - unfold icon. destruct theme as [t |]; [| tauto].
    destruct (String.eqb_spec t EmptyString) as [-> | Hne].
    + tauto.
    + destruct (t =? "dark"); split; try discriminate;
        intros [H | H]; congruence.
  - unfold icon. destruct theme as [t |]; [| split; discriminate].
    destruct (String.eqb_spec t EmptyString) as [-> | Hne];
      [split; discriminate |].
    destruct (String.eqb_spec t "dark") as [-> | Hd].
    + tauto.
    + split; [discriminate | congruence].
  - unfold onClick, toggled. destruct theme as [t |]; [| reflexivity].
    destruct (t =? "light"); reflexivity.
Qed.

End ThemeToggleFacts.

(** ** [onSubmit] in its surroundings *)

Lemma surroundings_for_await (p : Progress) (s : State) :
  Surroundings.for_await p
    (fun m => Surroundings.setUpdateProgressMessage (Some m)) s
  = (match ending p with None => Done tt | Some e => Thrown e end,
     Surroundings.after_pulls p s,
     Surroundings.pulls_at p s).
Proof.
  revert s. induction p as [| e | m rest IH]; intros s; try reflexivity.
  simpl. unfold Surroundings.bind at 1. simpl.
  unfold Surroundings.bind at 1. simpl.
  rewrite IH. destruct (ending rest); reflexivity.
Qed.

Lemma cleared_after_pulls (p : Progress) (s : State) :
  cleared (Surroundings.after_pulls p s) = cleared s.
Proof.
  revert s. induction p as [| e | m rest IH]; intros s; try reflexivity.
  simpl. now rewrite IH.
Qed.

Lemma isUpdating_after_pulls (p : Progress) (s : State) :
  isUpdating (Surroundings.after_pulls p s) = isUpdating s.
Proof.
  revert s. induction p as [| e | m rest IH]; intros s; try reflexivity.
  simpl. now rewrite IH.
Qed.

(** A run, block by block: the two calls before the [try] statement,
    then, when [onUpdateStart] returned, the [try] block, the [catch]
    block when the [try] block threw, and the [finally] block. *)
Lemma surroundings_run
    (JSON_stringify : JS.Value -> JS.Completion (option string))
    (submitUpdateDocuments : Delta -> Progress)
    (initialDocuments : list InitialDocument)
    (parent : Surroundings.Parent) (data : FormValue) (s : State) :
  Surroundings.onSubmit JSON_stringify submitUpdateDocuments
    initialDocuments parent data s
  = let b := Surroundings.with_updating true s in
    match Surroundings.start_throws parent with
    | Some e0 => (Thrown e0, b, [(SetUpdating true, b); (OnUpdateStart, b)])
    | None =>
        let '(thrown, s1, body) :=
          Surroundings.try_block submitUpdateDocuments initialDocuments
            parent data b in
        let '(out, caught) :=
          match thrown with
          | None => (Done tt, [])
          | Some e => Surroundings.catch_block JSON_stringify parent e s1
          end in
        (out, cleared s,
         [(SetUpdating true, b); (OnUpdateStart, b)]
           ++ body ++ caught ++ Surroundings.finally_block s1)
    end.
Proof.
  unfold Surroundings.onSubmit, Surroundings.async, Surroundings.try_finally,
    Surroundings.try_catch, Surroundings.bind, Surroundings.call,
    Surroundings.try_block, Surroundings.catch_block, isAnyFileChanged.
  cbn zeta.
  destruct (Surroundings.start_throws parent) as [e0 |]; [reflexivity |].
  cbn.
  destruct (Nat.eqb _ 0) eqn:Hz; cbn.
  - destruct (Surroundings.end_throws parent) as [e1 |]; cbn;
      [| reflexivity].
    destruct (Surroundings.errorMessage JSON_stringify e1) as [m | x]; cbn;
      [| reflexivity].
    destruct (Surroundings.end_message_throws parent m); reflexivity.
  - fold (computeDelta (documents data) initialDocuments).
    rewrite surroundings_for_await.
    set (p := submitUpdateDocuments _).
    set (b := Surroundings.with_updating true s).
    assert (Hp : Surroundings.with_message None
                   (Surroundings.with_updating false
                      (Surroundings.after_pulls p b)) = cleared s)
      by (transitivity (cleared (Surroundings.after_pulls p b));
          [reflexivity | rewrite cleared_after_pulls; reflexivity]).
    destruct (ending p) as [e |]; cbn.
    + destruct (Surroundings.errorMessage JSON_stringify e) as [m | x]; cbn;
        [destruct (Surroundings.end_message_throws parent m); cbn |];
        (apply f_equal2;
         [apply f_equal2; [reflexivity | exact Hp]
         | rewrite <- ?app_assoc, ?app_nil_r; reflexivity]).
    + destruct (Surroundings.end_throws parent) as [e1 |]; cbn;
        [destruct (Surroundings.errorMessage JSON_stringify e1) as [m | x];
         cbn;
         [destruct (Surroundings.end_message_throws parent m); cbn |] |];
        (apply f_equal2;
         [apply f_equal2; [reflexivity | exact Hp]
         | rewrite <- ?app_assoc, ?app_nil_r; reflexivity]).
Qed.

Lemma events_pulls_at (p : Progress) (s : State) :
  map fst (Surroundings.pulls_at p s) = pulls p.
Proof.
  revert s. induction p as [| e | m rest IH]; intros s; try reflexivity.
  simpl. now rewrite IH.
Qed.

Lemma pulls_at_head (p : Progress) (s : State) :
  exists rest, Surroundings.pulls_at p s = (AwaitNext, s) :: rest.
Proof.
  destruct p; simpl; eexists; reflexivity.
Qed.

Lemma errorMessage_agree (e : JS.Value) :
  Surroundings.errorMessage Surroundings.total_stringify e = errorMessage e.
Proof.
  unfold Surroundings.errorMessage, errorMessage, Surroundings.total_stringify.
  destruct (JS.get_message e) as [m | x]; [| reflexivity].
  unfold JS.or. destruct (JS.truthy m) eqn:T; [now rewrite T | reflexivity].
Qed.

Lemma changed_not_zero (docs : list Document)
    (initialDocuments : list InitialDocument) :
  computeDelta docs initialDocuments <> emptyDelta ->
  Nat.eqb (isAnyFileChanged docs initialDocuments) 0 = false.
Proof.
  intros H. apply Nat.eqb_neq. intros Hz.
  now apply isAnyFileChanged_zero in Hz.
Qed.

(** With callbacks that return and [JS.stringify] for [JSON.stringify],
    the run in its surroundings is the run of the first model: the same
    events in the same order, the same outcome, the same final state. *)
Lemma surroundings_agree (submitUpdateDocuments : Delta -> Progress)
    (initialDocuments : list InitialDocument) (data : FormValue) (s : State) :
  let r := Surroundings.onSubmit Surroundings.total_stringify
             submitUpdateDocuments initialDocuments Surroundings.returning
             data s in
  Surroundings.events r
    = trace (onSubmit submitUpdateDocuments initialDocuments data s) /\
  Surroundings.outcome r
    = outcome (onSubmit submitUpdateDocuments initialDocuments data s) /\
  Surroundings.final r
    = final (onSubmit submitUpdateDocuments initialDocuments data s).
Proof.
  cbn zeta. rewrite surroundings_run. cbn zeta. simpl Surroundings.start_throws.
  unfold Surroundings.try_block, Surroundings.catch_block.
  destruct (delta_empty_dec (documents data) initialDocuments) as [H | H].
  - rewrite (onSubmit_noop _ _ _ _ H).
    apply isAnyFileChanged_zero in H. rewrite H. repeat split.
  - rewrite (onSubmit_change _ _ _ _ H), (changed_not_zero _ _ H).
    cbn zeta. unfold Surroundings.events, Surroundings.outcome,
      Surroundings.final, trace, outcome, final.
    destruct (ending _) as [e |]; cbn [fst snd Surroundings.end_throws
      Surroundings.returning end_outcome end_notification].
    + rewrite errorMessage_agree.
      destruct (errorMessage e) as [m | x]; cbn;
        rewrite !map_app, events_pulls_at; repeat split.
    + cbn. rewrite !map_app, events_pulls_at. cbn.
      rewrite <- app_assoc. repeat split.
Qed.

(** ** The surroundings: claims C4 and C6 *)

(** C4 at a parent whose [onUpdateStart] throws: line 81 is outside the
    [try] statement, so the throw leaves [onSubmit] at once; the
    [finally] block does not run, [onUpdateEnd] is not called, and the
    run ends with the busy flag set (and the progress message as it
    was). *)
Theorem C4_throwing_start_skips_cleanup
    (JSON_stringify : JS.Value -> JS.Completion (option string))
    (submitUpdateDocuments : Delta -> Progress)
    (initialDocuments : list InitialDocument)
    (data : FormValue) (s : State) (e : JS.Value)
    (end_throws : option JS.Value)
    (end_message_throws : JS.Value -> option JS.Value) :
  let parent :=
    {| Surroundings.start_throws := Some e;
       Surroundings.end_throws := end_throws;
       Surroundings.end_message_throws := end_message_throws |} in
  let r := Surroundings.onSubmit JSON_stringify submitUpdateDocuments
             initialDocuments parent data s in
  Surroundings.outcome r = Thrown e /\
  isUpdating (Surroundings.final r) = true /\
  updateProgressMessage (Surroundings.final r) = updateProgressMessage s /\
  Surroundings.events r = [SetUpdating true; OnUpdateStart].
Proof.
  cbn zeta. rewrite surroundings_run. repeat split.
Qed.

(** C6: [onUpdateStart()] is the second call of every run, right after
    [setUpdating(true)] and before anything is awaited, and the state of
    the component at that call has the busy flag set; when the delta is
    not empty and [onUpdateStart] returns, the next two events are the
    call of [submitUpdateDocuments] and the first pull on its stream,
    the flag still set. *)
Theorem C6_busy_when_start_is_notified
    (JSON_stringify : JS.Value -> JS.Completion (option string))
    (submitUpdateDocuments : Delta -> Progress)
    (initialDocuments : list InitialDocument)
    (parent : Surroundings.Parent) (data : FormValue) (s : State)
    (Hchange : computeDelta (documents data) initialDocuments <> emptyDelta) :
  exists s1 rest,
    Surroundings.log
      (Surroundings.onSubmit JSON_stringify submitUpdateDocuments
         initialDocuments parent data s)
    = (SetUpdating true, s1) :: (OnUpdateStart, s1) :: rest /\
    isUpdating s1 = true /\
    (Surroundings.start_throws parent = None ->
     exists later,
       rest = (SubmitUpdateDocuments
                 (computeDelta (documents data) initialDocuments), s1)
              :: (AwaitNext, s1) :: later).
Proof.
  rewrite surroundings_run. cbn zeta.
  destruct (Surroundings.start_throws parent) as [e0 |].
  - eexists. eexists. split; [reflexivity |]. split; [reflexivity |].
    discriminate.
  - unfold Surroundings.try_block. rewrite (changed_not_zero _ _ Hchange).
    cbn zeta.
    destruct (pulls_at_head
                (submitUpdateDocuments
                   (computeDelta (documents data) initialDocuments))
                (Surroundings.with_updating true s)) as [later Hlater].
    destruct (ending _) as [e |].
    + destruct (Surroundings.catch_block _ _ _ _) as [out caught].
      eexists. eexists. split; [reflexivity |]. split; [reflexivity |].
      intros _. rewrite Hlater. eexists. reflexivity.
    + destruct (Surroundings.end_throws parent) as [e1 |];
        [destruct (Surroundings.catch_block _ _ _ _) as [out caught] |];
        (eexists; eexists; split; [reflexivity |]; split; [reflexivity |];
         intros _; rewrite Hlater; eexists; reflexivity).
Qed.

Lemma C6_busy_when_start_is_notified_witness :
  exists s1 rest,
    Surroundings.log
      (Surroundings.onSubmit Surroundings.total_stringify two_messages
         two_initial Surroundings.returning {| documents := edited |} idle)
    = (SetUpdating true, s1) :: (OnUpdateStart, s1) :: rest /\
    isUpdating s1 = true /\
    (Surroundings.start_throws Surroundings.returning = None ->
     exists later,
       rest = (SubmitUpdateDocuments (computeDelta edited two_initial), s1)
              :: (AwaitNext, s1) :: later).
Proof.
  apply (C6_busy_when_start_is_notified Surroundings.total_stringify
           two_messages two_initial Surroundings.returning
           {| documents := edited |} idle).
  simpl. discriminate.
Defined.

(** ** The surroundings: error paths *)

(** Once [onUpdateStart] has returned, every way out of [onSubmit] goes
    through the [finally] block: after the early return, after the
    stream completed or rejected, after an [onUpdateEnd] that threw,
    after a [JSON.stringify] that threw, the last two calls of the run
    are [setUpdating(false)] and [setUpdateProgressMessage(null)], and
    the run ends with the busy flag down and no progress message. *)
Theorem cleanup_once_start_returned
    (JSON_stringify : JS.Value -> JS.Completion (option string))
    (submitUpdateDocuments : Delta -> Progress)
    (initialDocuments : list InitialDocument)
    (parent : Surroundings.Parent) (data : FormValue) (s : State)
    (Hstart : Surroundings.start_throws parent = None) :
  let r := Surroundings.onSubmit JSON_stringify submitUpdateDocuments
             initialDocuments parent data s in
  isUpdating (Surroundings.final r) = false /\
  updateProgressMessage (Surroundings.final r) = None /\
  formDocuments (Surroundings.final r) = formDocuments s /\
  (exists before st,
     Surroundings.log r
     = before ++ [(SetUpdating false, st);
                  (SetUpdateProgressMessage None, cleared st)] /\
     cleared st = Surroundings.final r) /\
  Surroundings.outcome r <> Returned.
Proof.
  cbn zeta. rewrite surroundings_run, Hstart. cbn zeta.
  destruct (Surroundings.try_block _ _ _ _ _) as [[thrown s1] body] eqn:Hb.
  assert (Hs1 : cleared s1 = cleared s).
  { unfold Surroundings.try_block in Hb.
    destruct (Nat.eqb _ 0).
    - injection Hb as _ <- _. reflexivity.
    - cbn zeta in Hb. destruct (ending _);
        injection Hb as _ <- _; rewrite cleared_after_pulls; reflexivity. }
  assert (Hout : forall e, fst (Surroundings.catch_block JSON_stringify
                                  parent e s1) <> Returned).
  { intros e. unfold Surroundings.catch_block.
    destruct (Surroundings.errorMessage _ e) as [m | x]; simpl;
      [destruct (Surroundings.end_message_throws parent m) |];
      discriminate. }
  destruct thrown as [e |].
  - specialize (Hout e).
    destruct (Surroundings.catch_block _ _ e s1) as [out caught].
    repeat split; [| exact Hout].
    exists ([(SetUpdating true, Surroundings.with_updating true s);
             (OnUpdateStart, Surroundings.with_updating true s)]
            ++ body ++ caught), (Surroundings.with_updating false s1).
    split; [| exact Hs1].
    unfold Surroundings.log, Surroundings.finally_block. cbn [snd].
    now rewrite <- !app_assoc.
  - repeat split; [| discriminate].
    exists ([(SetUpdating true, Surroundings.with_updating true s);
             (OnUpdateStart, Surroundings.with_updating true s)]
            ++ body), (Surroundings.with_updating false s1).
    split; [| exact Hs1].
    unfold Surroundings.log, Surroundings.finally_block. cbn [snd].
    now rewrite <- !app_assoc.
Qed.

(** A parent whose [onUpdateEnd()] throws. *)
Lemma cleanup_once_start_returned_witness :
  let r := Surroundings.onSubmit Surroundings.throwing_stringify two_messages
             two_initial
             {| Surroundings.start_throws := None;
                Surroundings.end_throws := Some (JS.Str "parent failed");
                Surroundings.end_message_throws := fun _ => None |}
             {| documents := edited |} uploading in
  isUpdating (Surroundings.final r) = false /\
  updateProgressMessage (Surroundings.final r) = None /\
  formDocuments (Surroundings.final r) = formDocuments uploading /\
  (exists before st,
     Surroundings.log r
     = before ++ [(SetUpdating false, st);
                  (SetUpdateProgressMessage None, cleared st)] /\
     cleared st = Surroundings.final r) /\
  Surroundings.outcome r <> Returned.
Proof.
  apply (cleanup_once_start_returned Surroundings.throwing_stringify
           two_messages two_initial
           {| Surroundings.start_throws := None;
              Surroundings.end_throws := Some (JS.Str "parent failed");
              Surroundings.end_message_throws := fun _ => None |}
           {| documents := edited |} uploading).
  reflexivity.
Defined.

Lemma try_block_events (submitUpdateDocuments : Delta -> Progress)
    (initialDocuments : list InitialDocument)
    (parent : Surroundings.Parent) (data : FormValue) (s : State) :
  let '(thrown, _, body) :=
    Surroundings.try_block submitUpdateDocuments initialDocuments
      parent data s in
  let delta := computeDelta (documents data) initialDocuments in
  let p := submitUpdateDocuments delta in
  if Nat.eqb (isAnyFileChanged (documents data) initialDocuments) 0
  then map fst body = [OnUpdateEnd JS.Undefined] /\
       thrown = Surroundings.end_throws parent
  else
    match ending p with
    | Some e =>
        map fst body = SubmitUpdateDocuments delta :: pulls p /\
        thrown = Some e
    | None =>
        map fst body
        = SubmitUpdateDocuments delta :: pulls p ++ [OnUpdateEnd JS.Undefined] /\
        thrown = Surroundings.end_throws parent
    end.
Proof.
  unfold Surroundings.try_block.
  destruct (Nat.eqb _ 0); [split; reflexivity |]. cbn zeta.
  destruct (ending _); cbn; rewrite ?map_app, events_pulls_at;
    split; reflexivity.
Qed.

(** The calls one run makes to its surroundings: [onUpdateStart] once,
    as the second call of the run, and never again; [onUpdateEnd] at
    most twice, and at most once when its call without a message
    returns; [submitUpdateDocuments] once, with the computed delta,
    when [onUpdateStart] returned and [isAnyFileChanged] is not zero,
    and otherwise not at all. *)
Theorem calls_to_the_surroundings
    (JSON_stringify : JS.Value -> JS.Completion (option string))
    (submitUpdateDocuments : Delta -> Progress)
    (initialDocuments : list InitialDocument)
    (parent : Surroundings.Parent) (data : FormValue) (s : State) :
  let r := Surroundings.onSubmit JSON_stringify submitUpdateDocuments
             initialDocuments parent data s in
  (exists rest,
     Surroundings.events r = SetUpdating true :: OnUpdateStart :: rest /\
     filter is_start_notification rest = []) /\
  List.length (filter is_end_notification (Surroundings.events r))
    <= (match Surroundings.end_throws parent with
        | None => 1
        | Some _ => 2
        end) /\
  filter is_submission (Surroundings.events r)
    = (match Surroundings.start_throws parent with
       | Some _ => []
       | None =>
           if Nat.eqb (isAnyFileChanged (documents data) initialDocuments) 0
           then []
           else [SubmitUpdateDocuments
                   (computeDelta (documents data) initialDocuments)]
       end).
Proof.
  cbn zeta. unfold Surroundings.events. rewrite surroundings_run. cbn zeta.
  destruct (Surroundings.start_throws parent) as [e0 |].
  - cbn. split; [eexists; split; reflexivity |].
    split; [destruct (Surroundings.end_throws parent); lia | reflexivity].
  - pose proof (try_block_events submitUpdateDocuments initialDocuments
                  parent data (Surroundings.with_updating true s)) as Hb.
    destruct (Surroundings.try_block _ _ _ _ _) as [[thrown s1] body].
    cbn zeta in Hb.
    assert (Hcatch : forall e,
              exists l, map fst (snd (Surroundings.catch_block JSON_stringify
                                        parent e s1)) = l /\
                        List.length (filter is_end_notification l) <= 1 /\
                        filter is_start_notification l = [] /\
                        filter is_submission l = []).
    { intros e. eexists. split; [reflexivity |].
      unfold Surroundings.catch_block.
      destruct (Surroundings.errorMessage _ e); cbn; repeat split; lia. }
    assert (Hev : forall caught,
              map fst
                ([(SetUpdating true, Surroundings.with_updating true s);
                  (OnUpdateStart, Surroundings.with_updating true s)]
                 ++ body ++ caught ++ Surroundings.finally_block s1)
              = SetUpdating true :: OnUpdateStart
                  :: map fst body ++ map fst caught ++ cleanup_events)
      by (intros caught; cbn; now rewrite !map_app).
    destruct (Nat.eqb _ 0); [| destruct (ending _) as [e |]];
      destruct Hb as [Hbody ->];
      destruct (Surroundings.end_throws parent) as [e1 |];
      try (destruct (Hcatch e) as [l [Hl [H1 [H2 H3]]]];
           destruct (Surroundings.catch_block _ _ e s1) as [out caught]);
      try (destruct (Hcatch e1) as [l [Hl [H1 [H2 H3]]]];
           destruct (Surroundings.catch_block _ _ e1 s1) as [out caught]);
      cbn [snd] in *; rewrite Hev, Hbody; try rewrite Hl;
      (split; [eexists; split; [reflexivity |] | split]);
      cbn;
      rewrite ?filter_app, ?length_app;
      rewrite ?pulls_filter by reflexivity;
      cbn; rewrite ?H2, ?H3; cbn; try reflexivity; lia.
Qed.

(** How a rejection of the stream is reported, operand by operand of
    line 118.  When reading [e.message] throws, or when the message is
    falsy and [JSON.stringify(e)] throws, [onUpdateEnd] is not called
    and the throw leaves [onSubmit].  Otherwise [onUpdateEnd] is called
    exactly once: with the message when it is truthy, [JSON.stringify]
    not being called at all; else with the serialised error when that is
    a non-empty string; else with the error itself.  In every case the
    state is cleared. *)
Theorem rejection_report
    (JSON_stringify : JS.Value -> JS.Completion (option string))
    (submitUpdateDocuments : Delta -> Progress)
    (initialDocuments : list InitialDocument)
    (parent : Surroundings.Parent) (data : FormValue) (s : State)
    (e : JS.Value)
    (Hstart : Surroundings.start_throws parent = None)
    (Hchange : computeDelta (documents data) initialDocuments <> emptyDelta)
    (Hrejects :
       ending (submitUpdateDocuments
                 (computeDelta (documents data) initialDocuments)) = Some e) :
  let r := Surroundings.onSubmit JSON_stringify submitUpdateDocuments
             initialDocuments parent data s in
  let ends := filter is_end_notification (Surroundings.events r) in
  Surroundings.final r = cleared s /\
  (forall x, JS.get_message e = JS.Throw x ->
     ends = [] /\ Surroundings.outcome r = Thrown x) /\
  (forall m, JS.get_message e = JS.Normal m -> JS.truthy m = true ->
     ends = [OnUpdateEnd m] /\
     forall stringify',
       Surroundings.onSubmit stringify' submitUpdateDocuments
         initialDocuments parent data s = r) /\
  (forall m j, JS.get_message e = JS.Normal m -> JS.truthy m = false ->
     JSON_stringify e = JS.Normal j ->
     ends = [OnUpdateEnd
               (match j with
                | Some t => if truthy_string t then JS.Str t else e
                | None => e
                end)]) /\
  (forall m x, JS.get_message e = JS.Normal m -> JS.truthy m = false ->
     JSON_stringify e = JS.Throw x ->
     ends = [] /\ Surroundings.outcome r = Thrown x).
Proof.
  cbn zeta.
  pose (s1 := Surroundings.after_pulls
                (submitUpdateDocuments
                   (computeDelta (documents data) initialDocuments))
                (Surroundings.with_updating true s)).
  assert (Hrun : forall stringify',
            Surroundings.onSubmit stringify' submitUpdateDocuments
              initialDocuments parent data s
            = let b := Surroundings.with_updating true s in
              let delta := computeDelta (documents data) initialDocuments in
              let p := submitUpdateDocuments delta in
              let s1 := Surroundings.after_pulls p b in
              let '(out, caught) :=
                Surroundings.catch_block stringify' parent e s1 in
              (out, cleared s,
               [(SetUpdating true, b); (OnUpdateStart, b)]
                 ++ ((SubmitUpdateDocuments delta, b)
                       :: Surroundings.pulls_at p b)
                 ++ caught ++ Surroundings.finally_block s1)).
  { intros stringify'. rewrite surroundings_run, Hstart. cbn zeta.
    unfold Surroundings.try_block.
    rewrite (changed_not_zero _ _ Hchange). cbn zeta.
    now rewrite Hrejects. }
  assert (Hends : forall stringify' out caught,
            Surroundings.catch_block stringify' parent e
              s1 = (out, caught) ->
            filter is_end_notification
              (Surroundings.events
                 (Surroundings.onSubmit stringify' submitUpdateDocuments
                    initialDocuments parent data s))
            = filter is_end_notification (map fst caught) /\
            Surroundings.outcome
              (Surroundings.onSubmit stringify' submitUpdateDocuments
                 initialDocuments parent data s) = out /\
            Surroundings.final
              (Surroundings.onSubmit stringify' submitUpdateDocuments
                 initialDocuments parent data s) = cleared s).
  { intros stringify' out caught Hc. unfold s1 in Hc.
    rewrite Hrun. cbn zeta. rewrite Hc.
    unfold Surroundings.events, Surroundings.outcome, Surroundings.final.
    cbn [fst snd]. repeat split.
    cbn. rewrite !map_app, !filter_app, events_pulls_at.
    rewrite pulls_filter by reflexivity. cbn. now rewrite app_nil_r. }
  split; [| split; [| split; [| split]]].
  - destruct (Surroundings.catch_block JSON_stringify parent e s1)
      as [out caught] eqn:Hc.
    apply (Hends _ _ _ Hc).
  - intros x Hx.
    refine ((fun H => conj (proj1 H) (proj1 (proj2 H)))
              (Hends JSON_stringify (Thrown x) [] _)).
    unfold Surroundings.catch_block, Surroundings.errorMessage.
    now rewrite Hx.
  - intros m Hm Ht.
    assert (Hc : forall stringify',
              Surroundings.catch_block stringify' parent e
                s1
              = (match Surroundings.end_message_throws parent m with
                 | None => Done tt
                 | Some x => Thrown x
                 end,
                 [(OnUpdateEnd m,
                   s1)])).
    { intros stringify'.
      unfold Surroundings.catch_block, Surroundings.errorMessage.
      now rewrite Hm, Ht. }
    split.
    + apply (Hends _ _ _ (Hc JSON_stringify)).
    + intros stringify'. rewrite !Hrun. cbn zeta. unfold s1 in Hc.
      now rewrite !Hc.
  - intros m j Hm Ht Hj.
    set (v := match j with
              | Some t => if truthy_string t then JS.Str t else e
              | None => e
              end).
    assert (Hc : Surroundings.catch_block JSON_stringify parent e s1
                 = (match Surroundings.end_message_throws parent v with
                    | None => Done tt
                    | Some x => Thrown x
                    end,
                    [(OnUpdateEnd v, s1)])).
    { unfold Surroundings.catch_block, Surroundings.errorMessage.
      rewrite Hm, Ht, Hj. unfold JS.or, v.
      destruct j as [t |]; cbn; [| reflexivity].
      unfold truthy_string. destruct (negb (t =? EmptyString)); reflexivity. }
    apply (Hends _ _ _ Hc).
  - intros m x Hm Ht Hx.
    refine ((fun H => conj (proj1 H) (proj1 (proj2 H)))
              (Hends JSON_stringify (Thrown x) [] _)).
    unfold Surroundings.catch_block, Surroundings.errorMessage.
    now rewrite Hm, Ht, Hx.
Qed.

Lemma rejection_report_witness :
  Surroundings.final
    (Surroundings.onSubmit Surroundings.throwing_stringify
       (rejects_with status_500) two_initial Surroundings.returning
       {| documents := edited |} idle) = cleared idle /\
  (forall m x, JS.get_message status_500 = JS.Normal m ->
     JS.truthy m = false ->
     Surroundings.throwing_stringify status_500 = JS.Throw x ->
     filter is_end_notification
       (Surroundings.events
          (Surroundings.onSubmit Surroundings.throwing_stringify
             (rejects_with status_500) two_initial Surroundings.returning
             {| documents := edited |} idle)) = [] /\
     Surroundings.outcome
       (Surroundings.onSubmit Surroundings.throwing_stringify
          (rejects_with status_500) two_initial Surroundings.returning
          {| documents := edited |} idle) = Thrown x).
Proof.
  refine ((fun H => conj (proj1 H) (proj2 (proj2 (proj2 (proj2 H)))))
            (rejection_report Surroundings.throwing_stringify
               (rejects_with status_500) two_initial Surroundings.returning
               {| documents := edited |} idle status_500 _ _ _)).
  - reflexivity.
  - simpl. discriminate.
  - reflexivity.
Defined.
